(** * Smart Office sensor simulator: a shallow embedding and its properties

    The development embeds [simulador_smart_office.py].  The program is a
    linear pipeline: a generator of 672 instants, three signal functions that
    read two process-wide random generators, a loop accumulating three rows
    per instant, and a CSV writer followed by a printed summary.

    Python values are modelled with their dynamic type ([int], [float],
    [numpy.float64]); binary64 numbers are the kernel's primitive floats, so
    every definition below evaluates.  The pieces of the Python standard
    library and of NumPy / pandas that the script calls are embedded next to
    the code that uses them, each with the library routine it follows. *)

From Stdlib Require Import String Ascii ZArith List Bool Lia.
From Stdlib Require Import Floats.
From Stdlib Require Import DecimalString.
Import ListNotations.

Set Warnings "-inexact-float".

Local Open Scope Z_scope.

(** ** [datetime]: the proleptic Gregorian calendar of the standard library *)

Module Datetime.

(** [datetime.datetime] without a time zone: seven integer fields. *)
Record datetime : Type := mkDatetime {
  year : Z; month : Z; day : Z;
  hour : Z; minute : Z; second : Z; microsecond : Z
}.

(** [datetime.timedelta], always held normalised:
    [0 <= seconds < 86400] and [0 <= microseconds < 1000000]. *)
Record timedelta : Type := mkTimedelta {
  td_days : Z; td_seconds : Z; td_microseconds : Z
}.

Definition _is_leap (y : Z) : bool :=
  (y mod 4 =? 0) && (negb (y mod 100 =? 0) || (y mod 400 =? 0)).

Definition _days_before_year (y : Z) : Z :=
  let y := y - 1 in y * 365 + y / 4 - y / 100 + y / 400.

Definition _DAYS_IN_MONTH : list Z :=
  [-1; 31; 28; 31; 30; 31; 30; 31; 31; 30; 31; 30; 31].

Definition _DAYS_BEFORE_MONTH : list Z :=
  [-1; 0; 31; 59; 90; 120; 151; 181; 212; 243; 273; 304; 334].

Definition _days_in_month (y m : Z) : Z :=
  if (m =? 2) && _is_leap y then 29
  else nth (Z.to_nat m) _DAYS_IN_MONTH 0.

Definition _days_before_month (y m : Z) : Z :=
  nth (Z.to_nat m) _DAYS_BEFORE_MONTH 0
  + (if (2 <? m) && _is_leap y then 1 else 0).

Definition _ymd2ord (y m d : Z) : Z :=
  _days_before_year y + _days_before_month y m + d.

Definition _DI400Y : Z := Eval vm_compute in _days_before_year 401.
Definition _DI100Y : Z := Eval vm_compute in _days_before_year 101.
Definition _DI4Y : Z := Eval vm_compute in _days_before_year 5.

Definition _ord2ymd (n : Z) : Z * Z * Z :=
  let n := n - 1 in
  let n400 := n / _DI400Y in
  let n := n mod _DI400Y in
  let y := n400 * 400 + 1 in
  let n100 := n / _DI100Y in
  let n := n mod _DI100Y in
  let n4 := n / _DI4Y in
  let n := n mod _DI4Y in
  let n1 := n / 365 in
  let n := n mod 365 in
  let y := y + n100 * 100 + n4 * 4 + n1 in
  if (n1 =? 4) || (n100 =? 4) then (y - 1, 12, 31)
  else
    let leapyear := (n1 =? 3) && (negb (n4 =? 24) || (n100 =? 3)) in
    let m := Z.shiftr (n + 50) 5 in
    let preceding :=
      nth (Z.to_nat m) _DAYS_BEFORE_MONTH 0
      + (if (2 <? m) && leapyear then 1 else 0) in
    if n <? preceding then
      let m := m - 1 in
      let preceding :=
        preceding
        - (nth (Z.to_nat m) _DAYS_IN_MONTH 0
           + (if (m =? 2) && leapyear then 1 else 0)) in
      (y, m, n - preceding + 1)
    else (y, m, n - preceding + 1).

Definition _MAXORDINAL : Z := 3652059.

(** The field checks of the constructor ([ValueError] is [None]). *)
Definition valid (t : datetime) : bool :=
  (1 <=? year t) && (year t <=? 9999)
  && (1 <=? month t) && (month t <=? 12)
  && (1 <=? day t) && (day t <=? _days_in_month (year t) (month t))
  && (0 <=? hour t) && (hour t <=? 23)
  && (0 <=? minute t) && (minute t <=? 59)
  && (0 <=? second t) && (second t <=? 59)
  && (0 <=? microsecond t) && (microsecond t <=? 999999).

Definition new (y m d h mi s : Z) : option datetime :=
  let t := mkDatetime y m d h mi s 0 in
  if valid t then Some t else None.

(** [timedelta(days=d, hours=h, minutes=m)] for integer arguments. *)
Definition new_timedelta (d h m : Z) : timedelta :=
  let s := h * 3600 + m * 60 in
  mkTimedelta (d + s / 86400) (s mod 86400) 0.

(** Normalising constructor [timedelta(days, seconds, microseconds)]. *)
Definition normalize (d s us : Z) : timedelta :=
  let s := s + us / 1000000 in
  let us := us mod 1000000 in
  mkTimedelta (d + s / 86400) (s mod 86400) us.

Definition toordinal (t : datetime) : Z :=
  _ymd2ord (year t) (month t) (day t).

(** [datetime.weekday]: Monday is 0, Sunday is 6. *)
Definition weekday (t : datetime) : Z := (toordinal t + 6) mod 7.

(** [datetime.__add__]: [OverflowError] is [None]. *)
Definition add (t : datetime) (other : timedelta) : option datetime :=
  let delta :=
    normalize (toordinal t + td_days other)
              (hour t * 3600 + minute t * 60 + second t + td_seconds other)
              (microsecond t + td_microseconds other) in
  let h := td_seconds delta / 3600 in
  let rem := td_seconds delta mod 3600 in
  let mi := rem / 60 in
  let s := rem mod 60 in
  if (0 <? td_days delta) && (td_days delta <=? _MAXORDINAL) then
    let '(y, m, d) := _ord2ymd (td_days delta) in
    Some (mkDatetime y m d h mi s (td_microseconds delta))
  else None.

(** [datetime.__sub__] between two naive datetimes. *)
Definition sub (a b : datetime) : timedelta :=
  let secs1 := second a + minute a * 60 + hour a * 3600 in
  let secs2 := second b + minute b * 60 + hour b * 3600 in
  normalize (toordinal a - toordinal b) (secs1 - secs2)
            (microsecond a - microsecond b).

Definition fields (t : datetime) : list Z :=
  [year t; month t; day t; hour t; minute t; second t; microsecond t].

Fixpoint cmp_fields (a b : list Z) : comparison :=
  match a, b with
  | x :: a', y :: b' =>
      match x ?= y with Eq => cmp_fields a' b' | c => c end
  | [], [] => Eq
  | [], _ :: _ => Lt
  | _ :: _, [] => Gt
  end.

(** [datetime._cmp]: lexicographic comparison of the field tuples. *)
Definition cmp (a b : datetime) : comparison :=
  cmp_fields (fields a) (fields b).

Definition ltb (a b : datetime) : bool :=
  match cmp a b with Lt => true | _ => false end.

Definition eqb (a b : datetime) : bool :=
  match cmp a b with Eq => true | _ => false end.

Definition timedelta_eqb (a b : timedelta) : bool :=
  (td_days a =? td_days b) && (td_seconds a =? td_seconds b)
  && (td_microseconds a =? td_microseconds b).

End Datetime.

Import Datetime.

(** ** Text: decimal numerals and [strftime] *)

Definition str_of_Z (z : Z) : string := NilZero.string_of_int (Z.to_int z).

Fixpoint zeros (n : nat) : string :=
  match n with O => EmptyString | S k => String "0" (zeros k) end.

(** [%0wd]: a non-negative integer padded with zeros to width [w]. *)
Definition zfill (w : nat) (z : Z) : string :=
  let s := str_of_Z z in
  (zeros (w - String.length s) ++ s)%string.

(** [timestamp.strftime('%Y-%m-%d %H:%M:%S')]. *)
Definition strftime (t : datetime) : string :=
  (zfill 4 (year t) ++ "-" ++ zfill 2 (month t) ++ "-" ++ zfill 2 (day t)
   ++ " " ++ zfill 2 (hour t) ++ ":" ++ zfill 2 (minute t) ++ ":"
   ++ zfill 2 (second t))%string.

(** ** [gerar_timestamps_7_dias] *)

(** [range(start, stop, step)] for a positive step, as a list. *)
Definition range (start stop step : Z) : list Z :=
  map (fun k => start + Z.of_nat k * step)
      (seq 0 (Z.to_nat ((stop - start + step - 1) / step))).

(** Sequencing of a fallible loop body over a list ([for x in l: ...]
    where the body may raise). *)
Fixpoint for_each {A S : Type} (l : list A) (body : A -> S -> option S)
    (s : S) : option S :=
  match l with
  | [] => Some s
  | x :: l' =>
      match body x s with
      | Some s' => for_each l' body s'
      | None => None
      end
  end.

Definition gerar_timestamps_7_dias : option (list datetime) :=
  match Datetime.new 2024 1 15 0 0 0 with
  | None => None
  | Some data_inicio =>
      for_each (range 0 7 1) (fun dia =>
        for_each (range 0 24 1) (fun hora =>
          for_each (range 0 60 15) (fun minuto timestamps =>
            match Datetime.add data_inicio
                    (new_timedelta dia hora minuto) with
            | Some timestamp => Some (timestamps ++ [timestamp])
            | None => None
            end)))
        []
  end.

(** The materialised list, or the empty list had the generator raised. *)
Definition timestamps_list : list datetime :=
  match gerar_timestamps_7_dias with Some l => l | None => [] end.

(* The list has 672 elements: tactics need not unfold it. *)
Opaque timestamps_list.

Definition data_inicio : datetime := mkDatetime 2024 1 15 0 0 0 0.

Fixpoint consecutive_ok (step : timedelta) (l : list datetime) : bool :=
  match l with
  | a :: ((b :: _) as l') =>
      timedelta_eqb (Datetime.sub b a) step && consecutive_ok step l'
  | _ => true
  end.

Fixpoint nodupb (l : list datetime) : bool :=
  match l with
  | [] => true
  | a :: l' => negb (existsb (Datetime.eqb a) l') && nodupb l'
  end.

(** ** Binary64 numbers and their exact values *)

Module F64.

(** A finite float is exactly [m * 2^e]; the rational [(n, d)] is [n / d]
    with [0 < d]. *)
Definition exact (x : float) : option (Z * Z) :=
  match Prim2SF x with
  | S754_zero _ => Some (0, 1)
  | S754_finite s m e =>
      let n := if s then Z.neg m else Z.pos m in
      Some (if 0 <=? e then (n * 2 ^ e, 1) else (n, 2 ^ (- e)))
  | _ => None
  end.

Definition sign_bit (x : float) : bool :=
  match Prim2SF x with
  | S754_zero s | S754_infinity s | S754_finite s _ _ => s
  | S754_nan => false
  end.

(** Conversion of an integer, correctly rounded (exact below [2^53]). *)
Definition of_Z (z : Z) : float :=
  SF2Prim (binary_normalize prec emax z 0 false).

(** The binary64 number nearest to [n / d] ([0 < d]), ties to even. *)
Definition of_Q (n d : Z) : float :=
  match n, d with
  | Z.pos a, Z.pos b =>
      SF2Prim (SFdiv prec emax (S754_finite false a 0) (S754_finite false b 0))
  | Z.neg a, Z.pos b =>
      SF2Prim (SFdiv prec emax (S754_finite true a 0) (S754_finite false b 0))
  | _, _ => 0%float
  end.

(** [n / d] rounded to the nearest integer, ties to even ([0 < d]). *)
Definition rne_div (n d : Z) : Z :=
  let q := n / d in
  match 2 * (n mod d) ?= d with
  | Lt => q
  | Gt => q + 1
  | Eq => if Z.even q then q else q + 1
  end.

Definition signed_zero (neg : bool) : float :=
  if neg then (-0)%float else 0%float.

(** [float.__round__(ndigits)] of CPython for [0 <= ndigits]: the decimal
    rounding of the exact value, ties to even, converted back. *)
Definition py_round (x : float) (ndigits : Z) : float :=
  match exact x with
  | Some (n, d) =>
      let k := rne_div (n * 10 ^ ndigits) d in
      if k =? 0 then signed_zero (sign_bit x) else of_Q k (10 ^ ndigits)
  | None => x
  end.

(** [numpy.rint]: the nearest integral float, ties to even. *)
Definition rint (y : float) : float :=
  match exact y with
  | Some (n, d) =>
      let k := rne_div n d in
      if k =? 0 then signed_zero (sign_bit y) else of_Z k
  | None => y
  end.

(** [numpy.float64.__round__(ndigits)] for [0 <= ndigits], which is
    [numpy.round]: scale, [rint], unscale, all in binary64. *)
Definition np_round (x : float) (ndigits : Z) : float :=
  let f := of_Z (10 ^ ndigits) in
  (rint (x * f) / f)%float.

End F64.

(** ** Python values with their dynamic type *)

Inductive pyval : Type :=
| PyInt (z : Z)
| PyFloat (f : float)
| NpFloat64 (f : float).

Definition as_float (v : pyval) : float :=
  match v with
  | PyInt z => F64.of_Z z
  | PyFloat f | NpFloat64 f => f
  end.

Definition is_np (v : pyval) : bool :=
  match v with NpFloat64 _ => true | _ => false end.

(** The type of a mixed floating result: [numpy.float64] wins over [float]. *)
Definition float_result (a b : pyval) (f : float) : pyval :=
  if is_np a || is_np b then NpFloat64 f else PyFloat f.

Definition py_add (a b : pyval) : pyval :=
  match a, b with
  | PyInt x, PyInt y => PyInt (x + y)
  | _, _ => float_result a b (as_float a + as_float b)
  end.

Definition py_sub (a b : pyval) : pyval :=
  match a, b with
  | PyInt x, PyInt y => PyInt (x - y)
  | _, _ => float_result a b (as_float a - as_float b)
  end.

Definition py_mul (a b : pyval) : pyval :=
  match a, b with
  | PyInt x, PyInt y => PyInt (x * y)
  | _, _ => float_result a b (as_float a * as_float b)
  end.

(** True division [a / b]; the script only divides by non-zero constants,
    so [ZeroDivisionError] is not modelled. *)
Definition py_truediv (a b : pyval) : pyval :=
  float_result a b (as_float a / as_float b).

Definition py_lt (a b : pyval) : bool :=
  match a, b with
  | PyInt x, PyInt y => x <? y
  | _, _ => (as_float a <? as_float b)%float
  end.

Definition py_le (a b : pyval) : bool :=
  match a, b with
  | PyInt x, PyInt y => x <=? y
  | _, _ => (as_float a <=? as_float b)%float
  end.

Definition py_gt (a b : pyval) : bool := py_lt b a.
Definition py_ge (a b : pyval) : bool := py_le b a.

(** The builtins [max(a, b)] and [min(a, b)]: the first argument is kept
    unless the second compares strictly beyond it. *)
Definition py_max (a b : pyval) : pyval := if py_gt b a then b else a.
Definition py_min (a b : pyval) : pyval := if py_lt b a then b else a.

(** The builtin [round(v, ndigits)], dispatching on [__round__]. *)
Definition py_round (v : pyval) (ndigits : Z) : pyval :=
  match v with
  | PyInt z => PyInt z
  | PyFloat f => PyFloat (F64.py_round f ndigits)
  | NpFloat64 f => NpFloat64 (F64.np_round f ndigits)
  end.

Declare Scope py_scope.
Delimit Scope py_scope with py.
Infix "+" := py_add : py_scope.
Infix "-" := py_sub : py_scope.
Infix "*" := py_mul : py_scope.
Infix "/" := py_truediv : py_scope.
Infix "<?" := py_lt : py_scope.
Infix "<=?" := py_le : py_scope.
Infix ">?" := py_gt (at level 70) : py_scope.
Infix ">=?" := py_ge (at level 70) : py_scope.

(** [math.pi], which is also [numpy.pi]. *)
Definition np_pi : pyval := PyFloat 0x1.921fb54442d18p+1.

(** ** The process state: two global generators, the terminal, the disk *)

(** A seeded generator is the stream of its outputs and a read position:
    standard normal deviates for [numpy.random], uniform deviates of
    [[0, 1)] for [random]. *)
Record generator : Type := mkGenerator {
  draws : nat -> float;
  pos : nat
}.

Definition next_draw (g : generator) : float := draws g (pos g).
Definition advance (g : generator) : generator :=
  mkGenerator (draws g) (S (pos g)).

(** File contents are bytes. *)
Definition bytes : Type := list ascii.

Record world : Type := mkWorld {
  np_random : generator;
  py_random : generator;
  stdout : list string;
  files : list (string * bytes);
  os_linesep : string
}.

Definition with_np (g : generator) (w : world) : world :=
  mkWorld g (py_random w) (stdout w) (files w) (os_linesep w).
Definition with_py (g : generator) (w : world) : world :=
  mkWorld (np_random w) g (stdout w) (files w) (os_linesep w).

(** Computations that read and update the process state. *)
Definition Py (A : Type) : Type := world -> A * world.

Definition ret {A : Type} (a : A) : Py A := fun w => (a, w).
Definition bind {A B : Type} (c : Py A) (k : A -> Py B) : Py B :=
  fun w => let (a, w') := c w in k a w'.

Notation "x <- c ;; k" := (bind c (fun x => k))
  (at level 61, c at next level, right associativity).
Notation "c ;;; k" := (bind c (fun _ => k))
  (at level 61, right associativity).

(** [numpy.random.normal(loc, scale)]: one standard deviate, scaled and
    shifted; the legacy global generator returns a Python [float]. *)
Definition np_random_normal (loc scale : pyval) : Py pyval :=
  fun w =>
    let z := next_draw (np_random w) in
    (PyFloat (as_float loc + as_float scale * z)%float,
     with_np (advance (np_random w)) w).

(** [random.random()]. *)
Definition random_random : Py pyval :=
  fun w =>
    (PyFloat (next_draw (py_random w)),
     with_py (advance (py_random w)) w).

(** [print(s)]: one entry of the terminal per call. *)
Definition print (s : string) : Py unit :=
  fun w =>
    (tt, mkWorld (np_random w) (py_random w) (stdout w ++ [s]) (files w)
           (os_linesep w)).

(** ** The three signal functions *)

Section Signals.

(** The platform's sine on binary64, as [numpy.sin] calls it. *)
Variable libm_sin : float -> float.

Definition np_sin (x : pyval) : pyval := NpFloat64 (libm_sin (as_float x)).

Definition simular_temperatura (timestamp : datetime) : Py pyval :=
  let hora := PyInt (hour timestamp) in
  let dia_semana := PyInt (weekday timestamp) in
  let temp_base := PyFloat 21.5 in
  let temp_base :=
    if (PyInt 9 <=? hora)%py && (hora <=? PyInt 18)%py then
      let variacao_diurna :=
        (PyFloat 3.5 * np_sin ((hora - PyInt 9) * np_pi / PyInt 9))%py in
      (temp_base + variacao_diurna)%py
    else if ((PyInt 19 <=? hora)%py && (hora <=? PyInt 23)%py)
            || ((PyInt 0 <=? hora)%py && (hora <=? PyInt 6)%py) then
      (temp_base - PyFloat 2.0)%py
    else
      (temp_base + PyFloat 1.0)%py in
  variacao_aleatoria <- np_random_normal (PyInt 0) (PyFloat 0.8) ;;
  let temp_base :=
    if (dia_semana >=? PyInt 5)%py then (temp_base - PyFloat 0.5)%py
    else temp_base in
  let temperatura_final := (temp_base + variacao_aleatoria)%py in
  ret (py_max (PyFloat 16.0) (py_min (PyFloat 28.0) temperatura_final)).

Definition hora_decimal (timestamp : datetime) : pyval :=
  (PyInt (hour timestamp) + PyInt (minute timestamp) / PyFloat 60.0)%py.

Definition simular_luminosidade (timestamp : datetime) : Py pyval :=
  let hora_decimal := hora_decimal timestamp in
  if (hora_decimal >=? PyInt 20)%py || (hora_decimal <=? PyInt 6)%py then
    ret (PyFloat 0.0)
  else if (PyInt 6 <? hora_decimal)%py && (hora_decimal <=? PyInt 8)%py then
    ret ((hora_decimal - PyInt 6) * PyInt 250)%py
  else if (PyInt 18 <=? hora_decimal)%py && (hora_decimal <? PyInt 20)%py then
    ret ((PyInt 20 - hora_decimal) * PyInt 250)%py
  else
    let x := ((hora_decimal - PyInt 8) * np_pi / PyInt 10)%py in
    let luminosidade_base := (PyInt 1000 * np_sin x)%py in
    variacao_aleatoria <- np_random_normal (PyInt 0) (PyInt 50) ;;
    ret (py_max (PyInt 0) (luminosidade_base + variacao_aleatoria)%py).

Definition simular_ocupacao (timestamp : datetime) : Py pyval :=
  let hora := PyInt (hour timestamp) in
  let dia_semana := PyInt (weekday timestamp) in
  if (dia_semana <? PyInt 5)%py
     && ((PyInt 9 <=? hora)%py && (hora <? PyInt 18)%py) then
    u <- random_random ;;
    ret (if (u <? PyFloat 0.95)%py then PyInt 1 else PyInt 0)
  else if (dia_semana <? PyInt 5)%py then
    u <- random_random ;;
    ret (if (u <? PyFloat 0.05)%py then PyInt 1 else PyInt 0)
  else
    u <- random_random ;;
    ret (if (u <? PyFloat 0.02)%py then PyInt 1 else PyInt 0).

End Signals.


(** ** The signals as the specification words them *)

Module Spec.

(** Clamping to [[lo, hi]]. *)
Definition clamp (x lo hi : float) : float :=
  if (x <? lo)%float then lo else if (hi <? x)%float then hi else x.

(** The noiseless temperature for hour [h] and weekday [w]. *)
Definition temp_base (sin : float -> float) (h w : Z) : float :=
  let pi := 0x1.921fb54442d18p+1%float in
  let base :=
    if (9 <=? h) && (h <=? 18) then
      (21.5 + 3.5 * sin (F64.of_Z (h - 9) * pi / 9))%float
    else if ((19 <=? h) && (h <=? 23)) || ((0 <=? h) && (h <=? 6)) then
      (21.5 - 2.0)%float
    else if (h =? 7) || (h =? 8) then (21.5 + 1.0)%float
    else nan in
  if (w =? 5) || (w =? 6) then (base - 0.5)%float else base.

(** A Gaussian sample of mean [mu] and deviation [sigma] obtained from the
    standard deviate [z]. *)
Definition gaussian (mu sigma z : float) : float := (mu + sigma * z)%float.

(** [max(0, x)] on numbers. *)
Definition max0 (x : float) : float := if (0 <? x)%float then x else 0%float.

(** The probability of occupancy by weekday and hour. *)
Definition occupancy_threshold (wd h : Z) : float :=
  if wd <? 5 then
    if (9 <=? h) && (h <? 18) then 0.95%float else 0.05%float
  else 0.02%float.

End Spec.

(** ** Numbers as text *)

Module Fmt.

(** [n / d] scaled by [10^e]. *)
Definition scale10 (q : Z * Z) (e : Z) : Z * Z :=
  let (n, d) := q in
  if 0 <=? e then (n * 10 ^ e, d) else (n, d * 10 ^ (- e)).

Definition q_ltb (a b : Z * Z) : bool := fst a * snd b <? fst b * snd a.

(** The first [k], from [k] upwards, with [n / d < 10^k]. *)
Fixpoint find_exponent (fuel : nat) (q : Z * Z) (k : Z) : Z :=
  match fuel with
  | O => k
  | S fuel' =>
      if q_ltb q (scale10 (1, 1) k) then k
      else find_exponent fuel' q (k + 1)
  end.

(** For [0 < n / d]: the [k] with [10^(k-1) <= n / d < 10^k]. *)
Definition decimal_exponent (q : Z * Z) : Z :=
  let l := Z.log2 (fst q) - Z.log2 (snd q) in
  find_exponent 4 q ((l - 1) * 30103 / 100000).

Definition round_trips (x : float) (c e : Z) : bool :=
  let (n, d) := scale10 (c, 1) e in
  PrimFloat.Leibniz.eqb (F64.of_Q n d) x.

(** The shortest decimal [c * 10^(k - nd)] that reads back as [x], trying
    [nd] digits and then more; [q] is the exact value of [x > 0]. *)
Fixpoint shortest (fuel : nat) (x : float) (q : Z * Z) (k : Z) (nd : Z)
    : Z * Z :=
  let (sn, sd) := scale10 q (nd - k) in
  let lo := sn / sd in
  let hi := lo + 1 in
  let lo_ok := round_trips x lo (k - nd) in
  let hi_ok := round_trips x hi (k - nd) in
  let nearer_hi := sd <? 2 * (sn mod sd) in
  match fuel with
  | O => (if nearer_hi then hi else lo, nd)
  | S fuel' =>
      if lo_ok && hi_ok then (if nearer_hi then hi else lo, nd)
      else if lo_ok then (lo, nd)
      else if hi_ok then (hi, nd)
      else shortest fuel' x q k (nd + 1)
  end.

(** Trailing zeros of [c] dropped, one digit at least kept. *)
Fixpoint strip_zeros (fuel : nat) (c : Z) : Z :=
  match fuel with
  | O => c
  | S fuel' =>
      if (c mod 10 =? 0) && (10 <=? c) then strip_zeros fuel' (c / 10) else c
  end.

(** Layout of the digits [ds] with the decimal point after [k] of them, as
    [repr] does: positional for [1e-4 <= x < 1e16], else with an exponent
    of at least two digits. *)
Definition layout (ds : string) (k : Z) : string :=
  let n := Z.of_nat (String.length ds) in
  if (-4 <? k) && (k <=? 16) then
    if k <=? 0 then ("0." ++ zeros (Z.to_nat (- k)) ++ ds)%string
    else if n <=? k then (ds ++ zeros (Z.to_nat (k - n)) ++ ".0")%string
    else (substring 0 (Z.to_nat k) ds ++ "."
          ++ substring (Z.to_nat k) (Z.to_nat (n - k)) ds)%string
  else
    let e := k - 1 in
    let frac : string :=
      if 1 <? n then ("." ++ substring 1 (Z.to_nat (n - 1)) ds)%string
      else ""%string in
    let sign : string := if e <? 0 then "-"%string else "+"%string in
    (substring 0 1 ds ++ frac ++ "e" ++ sign ++ zfill 2 (Z.abs e))%string.

(** [repr] of a binary64 number, which is also how NumPy renders a
    [float64] as text: the shortest digits that read back as the number. *)
Definition float_str (x : float) : string :=
  match Prim2SF x with
  | S754_nan => "nan"%string
  | S754_infinity s => if s then "-inf"%string else "inf"%string
  | S754_zero s => if s then "-0.0"%string else "0.0"%string
  | S754_finite s m e =>
      let ax := abs x in
      let q := if 0 <=? e then (Z.pos m * 2 ^ e, 1) else (Z.pos m, 2 ^ (- e)) in
      let k := decimal_exponent q in
      let '(c, nd) := shortest 16 ax q k 1 in
      (* a carry to [10^nd] moves the decimal point one place up *)
      let k := if Z.of_nat (String.length (str_of_Z c)) <=? nd then k
               else k + 1 in
      let c := strip_zeros 17 c in
      ((if s then "-" else "") ++ layout (str_of_Z c) k)%string
  end.

(** The format [.2f] (any number of decimals [p]): the exact value rounded
    to [p] decimals, ties to even. *)
Definition format_fixed (x : float) (p : Z) : string :=
  match Prim2SF x with
  | S754_nan => "nan"%string
  | S754_infinity s => if s then "-inf"%string else "inf"%string
  | _ =>
      match F64.exact (abs x) with
      | Some (n, d) =>
          let k := F64.rne_div (n * 10 ^ p) d in
          let frac : string :=
            if 0 <? p then ("." ++ zfill (Z.to_nat p) (k mod 10 ^ p))%string
            else ""%string in
          ((if F64.sign_bit x then "-" else "")
           ++ str_of_Z (k / 10 ^ p) ++ frac)%string
      | None => "nan"%string
      end
  end.

(** Digits grouped by three from the right with commas. *)
Fixpoint group3 (fuel : nat) (z : Z) : string :=
  match fuel with
  | O => str_of_Z z
  | S fuel' =>
      if z <? 1000 then str_of_Z z
      else (group3 fuel' (z / 1000) ++ "," ++ zfill 3 (z mod 1000))%string
  end.

(** The format [:,] of a non-negative integer. *)
Definition format_thousands (z : Z) : string :=
  group3 (Z.to_nat (Z.log2 z)) z.

End Fmt.

(** ** The table, the file and the summary *)

(** One reading: the dictionary with keys [timestamp], [sensor_id] and
    [value] that the loop appends. *)
Record row : Type := mkRow {
  r_timestamp : string;
  r_sensor_id : string;
  r_value : pyval
}.

(** A numeric column of a [DataFrame]: [int64] or [float64]. *)
Inductive column : Type :=
| Int64Column (l : list Z)
| Float64Column (l : list float).

Record dataframe : Type := mkDataFrame {
  col_timestamp : list string;
  col_sensor_id : list string;
  col_value : column
}.

Definition is_int (v : pyval) : bool :=
  match v with PyInt _ => true | _ => false end.

Definition int_of (v : pyval) : Z :=
  match v with PyInt z => z | _ => 0 end.

(** Type inference of pandas for a column of numbers: integers only give
    [int64]; as soon as one value is a float the whole column is
    [float64] and the integers in it are converted. *)
Definition infer_column (vs : list pyval) : column :=
  if forallb is_int vs then Int64Column (map int_of vs)
  else Float64Column (map as_float vs).

(** [pd.DataFrame(dados_sensores)] for a list of readings. *)
Definition DataFrame (dados : list row) : dataframe :=
  mkDataFrame (map r_timestamp dados) (map r_sensor_id dados)
              (infer_column (map r_value dados)).

Definition column_length (c : column) : nat :=
  match c with
  | Int64Column l => List.length l
  | Float64Column l => List.length l
  end.

Definition column_floats (c : column) : list float :=
  match c with
  | Int64Column l => map F64.of_Z l
  | Float64Column l => l
  end.

(** The text of a [float64] value in the file: its shortest digits, or
    the empty field when the value is missing ([NaN]). *)
Definition value_text (f : float) : string :=
  if is_nan f then EmptyString else Fmt.float_str f.

(** The text of each value of a column: integers in decimal. *)
Definition column_text (c : column) : list string :=
  match c with
  | Int64Column l => map str_of_Z l
  | Float64Column l => map value_text l
  end.

Module Csv.

Definition dquote : ascii := ascii_of_nat 34.
Definition LF : ascii := ascii_of_nat 10.
Definition CR : ascii := ascii_of_nat 13.

Fixpoint needs_quote (s : string) : bool :=
  match s with
  | EmptyString => false
  | String c s' =>
      Ascii.eqb c "," || Ascii.eqb c dquote || Ascii.eqb c LF
      || Ascii.eqb c CR || needs_quote s'
  end.

Fixpoint escape (s : string) : string :=
  match s with
  | EmptyString => EmptyString
  | String c s' =>
      if Ascii.eqb c dquote then String c (String c (escape s'))
      else String c (escape s')
  end.

(** Minimal quoting of the [csv] writer. *)
Definition field (s : string) : string :=
  if needs_quote s then
    String dquote (escape s ++ String dquote EmptyString)
  else s.

Definition record (fields : list string) : string :=
  String.concat "," (map field fields).

Fixpoint rows (ts ids vals : list string) : list string :=
  match ts, ids, vals with
  | t :: ts', i :: ids', v :: vals' => record [t; i; v] :: rows ts' ids' vals'
  | _, _, _ => []
  end.

(** The lines of [df.to_csv(index=False)]: the header, then one record per
    row, without the index. *)
Definition lines (df : dataframe) : list string :=
  record ["timestamp"; "sensor_id"; "value"]%string
  :: rows (col_timestamp df) (col_sensor_id df) (column_text (col_value df)).

(** UTF-8 of a text whose code points are below 256. *)
Definition utf8_char (c : ascii) : bytes :=
  let n := N_of_ascii c in
  if (n <? 128)%N then [c]
  else [ascii_of_N (192 + n / 64); ascii_of_N (128 + n mod 64)].

Fixpoint utf8 (s : string) : bytes :=
  match s with
  | EmptyString => []
  | String c s' => utf8_char c ++ utf8 s'
  end.

(** The bytes read back as text; [None] when they are not the UTF-8 of
    code points below 256. *)
Fixpoint utf8_decode (b : bytes) : option string :=
  match b with
  | [] => Some EmptyString
  | c :: b' =>
      let n := N_of_ascii c in
      if (n <? 128)%N then option_map (String c) (utf8_decode b')
      else
        match b' with
        | c2 :: b'' =>
            let m := N_of_ascii c2 in
            if ((194 <=? n) && (n <=? 195) && (128 <=? m) && (m <? 192))%N
            then option_map (String (ascii_of_N ((n - 192) * 64 + (m - 128))))
                            (utf8_decode b'')
            else None
        | [] => None
        end
  end.

(** The text of the file: every line followed by the line terminator. *)
Definition text (linesep : string) (ls : list string) : string :=
  fold_right (fun l acc => (l ++ linesep ++ acc)%string) EmptyString ls.

Definition content (linesep : string) (ls : list string) : bytes :=
  utf8 (text linesep ls).

End Csv.

(** Writing a file replaces whatever the name held. *)
Definition write_file (name : string) (data : bytes) : Py unit :=
  fun w =>
    (tt, mkWorld (np_random w) (py_random w) (stdout w)
           ((name, data)
            :: filter (fun f => negb (String.eqb (fst f) name)) (files w))
           (os_linesep w)).

Definition read_file (name : string) (w : world) : option bytes :=
  match find (fun f => String.eqb (fst f) name) (files w) with
  | Some f => Some (snd f)
  | None => None
  end.

(** [df.to_csv(nome, index=False, encoding='utf-8')]. *)
Definition to_csv (df : dataframe) (nome : string) : Py unit :=
  fun w => write_file nome (Csv.content (os_linesep w) (Csv.lines df)) w.

(** [Series.min()] and [Series.max()] of a column of strings, by the order
    of [str]; an empty column gives [nan]. *)
Definition str_min (l : list string) : string :=
  match l with
  | [] => "nan"%string
  | x :: l' => fold_left (fun a s => if String.ltb s a then s else a) l' x
  end.

Definition str_max (l : list string) : string :=
  match l with
  | [] => "nan"%string
  | x :: l' => fold_left (fun a s => if String.ltb a s then s else a) l' x
  end.

(** [Series.unique()]: the distinct values in order of first appearance. *)
Fixpoint unique (l : list string) (seen : list string) : list string :=
  match l with
  | [] => []
  | s :: l' =>
      if existsb (String.eqb s) seen then unique l' seen
      else s :: unique l' (s :: seen)
  end.

(** [Series.min()] and [Series.max()] of numbers, [NaN] skipped. *)
Definition nanmin (l : list float) : float :=
  fold_left (fun a x =>
    if is_nan x then a else if is_nan a then x
    else if (x <? a)%float then x else a) l nan.

Definition nanmax (l : list float) : float :=
  fold_left (fun a x =>
    if is_nan x then a else if is_nan a then x
    else if (a <? x)%float then x else a) l nan.

(** The values of the rows whose sensor is [sensor]:
    [df[df['sensor_id'] == sensor]['value']]. *)
Fixpoint select (sensor : string) (ids : list string) (vals : list float)
    : list float :=
  match ids, vals with
  | i :: ids', v :: vals' =>
      if String.eqb i sensor then v :: select sensor ids' vals'
      else select sensor ids' vals'
  | _, _ => []
  end.

Fixpoint for_each_py {A : Type} (l : list A) (body : A -> Py unit)
    : Py unit :=
  match l with
  | [] => ret tt
  | x :: l' => body x ;;; for_each_py l' body
  end.

(** How a run of [main] ends.  [main] returns nothing; the model hands
    back the table it built so that properties can speak about it. *)
Inductive outcome : Type :=
| Raised (exn : string)
| Done (df : dataframe).

Section Program.

Variable libm_sin : float -> float.

(** NumPy's sum of a [float64] array; the order of accumulation is the
    library's. *)
Variable np_sum : list float -> float.

(** [Series.mean()], [NaN] skipped. *)
Definition mean (l : list float) : float :=
  let xs := filter (fun x => negb (is_nan x)) l in
  (np_sum xs / F64.of_Z (Z.of_nat (List.length xs)))%float.

(** The body of the loop over [enumerate(timestamps)]. *)
Definition processar (i n : Z) (timestamp : datetime)
    (dados_sensores : list row) : Py (list row) :=
  (if i mod 100 =? 0 then
     print ("   Processando: " ++ str_of_Z i ++ "/" ++ str_of_Z n
            ++ " registros")
   else ret tt) ;;;
  temp_value <- simular_temperatura libm_sin timestamp ;;
  let dados_sensores :=
    dados_sensores
    ++ [mkRow (strftime timestamp) "TEMP01" (py_round temp_value 2)] in
  lux_value <- simular_luminosidade libm_sin timestamp ;;
  let dados_sensores :=
    dados_sensores
    ++ [mkRow (strftime timestamp) "LUX01" (py_round lux_value 2)] in
  occ_value <- simular_ocupacao timestamp ;;
  ret (dados_sensores ++ [mkRow (strftime timestamp) "OCCU01" occ_value]).

Fixpoint simular_dados (i n : Z) (timestamps : list datetime)
    (dados_sensores : list row) : Py (list row) :=
  match timestamps with
  | [] => ret dados_sensores
  | timestamp :: rest =>
      dados_sensores <- processar i n timestamp dados_sensores ;;
      simular_dados (i + 1) n rest dados_sensores
  end.

(** The per-sensor block of the summary. *)
Definition estatisticas (df : dataframe) (sensor : string) : Py unit :=
  let dados_sensor :=
    select sensor (col_sensor_id df) (column_floats (col_value df)) in
  print ("   " ++ sensor ++ ":") ;;;
  print ("      Media: " ++ Fmt.format_fixed (mean dados_sensor) 2) ;;;
  print ("      Min: " ++ Fmt.format_fixed (nanmin dados_sensor) 2) ;;;
  print ("      Max: " ++ Fmt.format_fixed (nanmax dados_sensor) 2).

Definition nome_arquivo : string := "smart_office_data.csv".

Definition relatorio (df : dataframe) : Py unit :=
  print (String Csv.LF "Estatisticas dos Dados Gerados:") ;;;
  print ("   Total de registros: "
         ++ Fmt.format_thousands (Z.of_nat (List.length (col_timestamp df)))) ;;;
  print ("   Periodo: " ++ str_min (col_timestamp df) ++ " ate "
         ++ str_max (col_timestamp df)) ;;;
  print ("   Sensores: "
         ++ str_of_Z (Z.of_nat (List.length (unique (col_sensor_id df) [])))
         ++ " tipos") ;;;
  for_each_py (unique (col_sensor_id df) []) (estatisticas df) ;;;
  print (String Csv.LF "Simulacao concluida! Arquivo salvo como: "
         ++ nome_arquivo) ;;;
  print "Dados prontos para analise do projeto Smart Office!".

Definition main : Py outcome :=
  print "Iniciando simulacao de dados do Smart Office..." ;;;
  print "Gerando timestamps para 7 dias..." ;;;
  match gerar_timestamps_7_dias with
  | None => ret (Raised "OverflowError")
  | Some timestamps =>
      let n := Z.of_nat (List.length timestamps) in
      print ("   OK: " ++ str_of_Z n ++ " timestamps gerados") ;;;
      print "Simulando dados dos sensores..." ;;;
      dados_sensores <- simular_dados 0 n timestamps [] ;;
      print "Criando arquivo CSV..." ;;;
      let df := DataFrame dados_sensores in
      to_csv df nome_arquivo ;;;
      relatorio df ;;;
      ret (Done df)
  end.

(** The generator a seed yields, for each of the two libraries. *)
Variable np_seeded : Z -> nat -> float.
Variable py_seeded : Z -> nat -> float.

(** [np.random.seed(s)] and [random.seed(s)]. *)
Definition np_random_seed (s : Z) : Py unit :=
  fun w => (tt, with_np (mkGenerator (np_seeded s) 0) w).
Definition random_seed (s : Z) : Py unit :=
  fun w => (tt, with_py (mkGenerator (py_seeded s) 0) w).

(** The script run as a program. *)
Definition program : Py outcome :=
  np_random_seed 42 ;;; random_seed 42 ;;; main.

End Program.

(** ** Derived notions used to state the properties *)

(** The branches of the illuminance that draw nothing, by decimal hour. *)
Definition lux_static (d : pyval) : option pyval :=
  if (d >=? PyInt 20)%py || (d <=? PyInt 6)%py then Some (PyFloat 0.0)
  else if (PyInt 6 <? d)%py && (d <=? PyInt 8)%py then
    Some ((d - PyInt 6) * PyInt 250)%py
  else if (PyInt 18 <=? d)%py && (d <? PyInt 20)%py then
    Some ((PyInt 20 - d) * PyInt 250)%py
  else None.

Definition lux_static_nonneg (h m : Z) : bool :=
  match lux_static (PyInt h + PyInt m / PyFloat 60.0)%py with
  | Some v => (0 <=? as_float v)%float
  | None => true
  end.

(** The three readings the loop appends for instant [t] when the
    temperature is drawn in state [w]: the signals are called in the order
    temperature, illuminance, occupancy, each in the state the previous one
    left. *)
Definition leituras (libm_sin : float -> float) (t : datetime) (w : world)
    : list row :=
  let temp := simular_temperatura libm_sin t w in
  let lux := simular_luminosidade libm_sin t (snd temp) in
  let occ := simular_ocupacao t (snd lux) in
  [mkRow (strftime t) "TEMP01" (py_round (fst temp) 2);
   mkRow (strftime t) "LUX01" (py_round (fst lux) 2);
   mkRow (strftime t) "OCCU01" (fst occ)].

(** A table made of the readings of the instants of a list, in order. *)
Inductive table_of (libm_sin : float -> float)
    : list datetime -> list row -> Prop :=
| table_nil : table_of libm_sin [] []
| table_cons (t : datetime) (l : list datetime) (w : world)
    (rows : list row) :
    table_of libm_sin l rows ->
    table_of libm_sin (t :: l) (leituras libm_sin t w ++ rows).




(** The line of the file for a reading of a [float64] table. *)
Definition csv_line (r : row) : string :=
  Csv.record [r_timestamp r; r_sensor_id r; value_text (as_float (r_value r))].

(** [frame w w']: from [w] to [w'] the disk and the platform are unchanged
    and the terminal has only grown. *)
Definition frame (w w' : world) : Prop :=
  files w' = files w /\ os_linesep w' = os_linesep w
  /\ exists out, stdout w' = stdout w ++ out.

Definition framed {A : Type} (c : Py A) : Prop :=
  forall w, frame w (snd (c w)).

(** The file as C8 words it: the header line, 2016 data rows, and every
    occupancy row ending in the text [0] or [1]. *)
Definition csv_as_claimed (file_lines : list string) : Prop :=
  hd_error file_lines = Some "timestamp,sensor_id,value"%string
  /\ List.length (tl file_lines) = 2016%nat
  /\ forall time value : string,
       In (time ++ ",OCCU01," ++ value)%string (tl file_lines) ->
       value = "0"%string \/ value = "1"%string.

(** Comparison of the bytes of a file with expected bytes. *)
Fixpoint bytes_eqb (a b : bytes) : bool :=
  match a, b with
  | [], [] => true
  | x :: a', y :: b' => Ascii.eqb x y && bytes_eqb a' b'
  | _, _ => false
  end.

Definition file_is (name : string) (w : world) (data : bytes) : bool :=
  match read_file name w with
  | Some b => bytes_eqb b data
  | None => false
  end.

(** ** A concrete platform on which the model runs *)

Module Sample.

(** A sine good enough on [[0, pi]]: the Taylor polynomial of degree 21.
    It stands in for the platform's; the properties hold for any. *)
Definition libm_sin (x : float) : float :=
  let x2 := (x * x)%float in
  let term (k : Z) (t : float) : float :=
    (- t * x2 / F64.of_Z ((2 * k) * (2 * k + 1)))%float in
  let t1 := x in
  let t3 := term 1 t1 in
  let t5 := term 2 t3 in
  let t7 := term 3 t5 in
  let t9 := term 4 t7 in
  let t11 := term 5 t9 in
  let t13 := term 6 t11 in
  let t15 := term 7 t13 in
  let t17 := term 8 t15 in
  let t19 := term 9 t17 in
  let t21 := term 10 t19 in
  (t1 + t3 + t5 + t7 + t9 + t11 + t13 + t15 + t17 + t19 + t21)%float.

(** Summation from left to right. *)
Definition np_sum (l : list float) : float :=
  fold_left PrimFloat.add l 0%float.

(** A Weyl sequence of uniform deviates of [[0, 1)] for each seed. *)
Definition uniform (seed : Z) (n : nat) : float :=
  (F64.of_Z (((seed + Z.of_nat n + 1) * 2654435761) mod 4294967296)
   / 4294967296)%float.

(** Deviates of mean 0 and unit variance (uniform, not normal). *)
Definition deviate (seed : Z) (n : nat) : float :=
  ((uniform (seed + 7) n - 0.5) * 0x1.bb67ae8584caap+1)%float.

(** A fresh process under a POSIX system: generators in some state, an
    empty terminal, an empty disk. *)
Definition world0 : world :=
  mkWorld (mkGenerator (deviate 0) 0) (mkGenerator (uniform 0) 0) [] []
          (String (ascii_of_nat 10) EmptyString).

Definition run : outcome * world :=
  program libm_sin np_sum deviate uniform world0.

Definition table : dataframe :=
  match fst run with Done df => df | Raised _ => DataFrame [] end.

Definition monday_noon : datetime := mkDatetime 2024 1 15 12 0 0 0.
Definition monday_early : datetime := mkDatetime 2024 1 15 7 30 0 0.
Definition monday_evening : datetime := mkDatetime 2024 1 15 19 15 0 0.
Definition saturday_morning : datetime := mkDatetime 2024 1 20 10 0 0 0.

End Sample.

(** * Properties *)

(** ** The order of binary64 numbers *)

Module FloatOrder.

Ltac cmp_solve :=
  intros;
  repeat match goal with
  | H : context [Z.compare ?a ?b] |- _ =>
      destruct (Z.compare_spec a b); try discriminate H
  | H : context [Pos.compare ?a ?b] |- _ =>
      destruct (Pos.compare_spec a b); try discriminate H
  | |- context [Z.compare ?a ?b] => destruct (Z.compare_spec a b)
  | |- context [Pos.compare ?a ?b] => destruct (Pos.compare_spec a b)
  end; subst; simpl in *; try reflexivity; try discriminate; try lia.

Ltac sf_destruct a m e := destruct a as [[]|[]| |[] m e].

Ltac sf_order :=
  unfold SFleb, SFltb; simpl;
  change (Pos.compare_cont Eq) with Pos.compare;
  try discriminate; try reflexivity; cmp_solve.

Lemma SFltb_trans (a b c : spec_float) :
  SFltb a b = true -> SFltb b c = true -> SFltb a c = true.
Proof.
  sf_destruct a ma ea; sf_destruct b mb eb; sf_destruct c mc ec; sf_order.
Qed.

Lemma SFleb_trans (a b c : spec_float) :
  SFleb a b = true -> SFleb b c = true -> SFleb a c = true.
Proof.
  sf_destruct a ma ea; sf_destruct b mb eb; sf_destruct c mc ec; sf_order.
Qed.

Lemma SFleb_ltb_trans (a b c : spec_float) :
  SFleb a b = true -> SFltb b c = true -> SFltb a c = true.
Proof.
  sf_destruct a ma ea; sf_destruct b mb eb; sf_destruct c mc ec; sf_order.
Qed.

Lemma SFltb_leb_trans (a b c : spec_float) :
  SFltb a b = true -> SFleb b c = true -> SFltb a c = true.
Proof.
  sf_destruct a ma ea; sf_destruct b mb eb; sf_destruct c mc ec; sf_order.
Qed.

Lemma SFltb_leb (a b : spec_float) : SFltb a b = true -> SFleb a b = true.
Proof. sf_destruct a ma ea; sf_destruct b mb eb; sf_order. Qed.

Lemma SFltb_leb_false (a b : spec_float) :
  SFltb a b = true -> SFleb b a = false.
Proof. sf_destruct a ma ea; sf_destruct b mb eb; sf_order. Qed.

Lemma SFltb_asym (a b : spec_float) :
  SFltb a b = true -> SFltb b a = false.
Proof. sf_destruct a ma ea; sf_destruct b mb eb; sf_order. Qed.

(** Against a finite non-zero [c], neither below nor above means equal. *)
Lemma SF_neither_lt (a : spec_float) s m e :
  a <> S754_nan ->
  SFltb a (S754_finite s m e) = false ->
  SFltb (S754_finite s m e) a = false -> a = S754_finite s m e.
Proof.
  sf_destruct a ma ea; destruct s; try congruence; sf_order.
Qed.

Local Open Scope float_scope.

Lemma ltb_leb (x y : float) : (x <? y) = true -> (x <=? y) = true.
Proof. rewrite ltb_spec, leb_spec. apply SFltb_leb. Qed.

Lemma ltb_trans (x y z : float) :
  (x <? y) = true -> (y <? z) = true -> (x <? z) = true.
Proof. rewrite !ltb_spec. apply SFltb_trans. Qed.

Lemma leb_trans (x y z : float) :
  (x <=? y) = true -> (y <=? z) = true -> (x <=? z) = true.
Proof. rewrite !leb_spec. apply SFleb_trans. Qed.

Lemma leb_ltb_trans (x y z : float) :
  (x <=? y) = true -> (y <? z) = true -> (x <? z) = true.
Proof. rewrite !ltb_spec, leb_spec. apply SFleb_ltb_trans. Qed.

Lemma ltb_leb_trans (x y z : float) :
  (x <? y) = true -> (y <=? z) = true -> (x <? z) = true.
Proof. rewrite !ltb_spec, leb_spec. apply SFltb_leb_trans. Qed.

Lemma ltb_asym (x y : float) : (x <? y) = true -> (y <? x) = false.
Proof. rewrite !ltb_spec. apply SFltb_asym. Qed.

Lemma ltb_leb_false (x y : float) : (x <? y) = true -> (y <=? x) = false.
Proof. rewrite ltb_spec, leb_spec. apply SFltb_leb_false. Qed.

Lemma is_nan_spec (x : float) :
  is_nan x = false -> Prim2SF x <> S754_nan.
Proof.
  unfold is_nan. rewrite eqb_spec. unfold SFeqb. intros H E.
  rewrite E in H. discriminate.
Qed.

(** Against a finite non-zero constant [c], a number that is neither below
    nor above [c] is [c] itself. *)
Lemma neither_lt_eq (x c : float) s m e :
  Prim2SF c = S754_finite s m e ->
  is_nan x = false -> (x <? c) = false -> (c <? x) = false -> x = c.
Proof.
  intros Hc Hn. apply is_nan_spec in Hn.
  rewrite !ltb_spec, Hc. intros H1 H2.
  apply Prim2SF_inj. rewrite Hc. now apply SF_neither_lt.
Qed.

End FloatOrder.

(** ** Validity of instants *)

Lemma valid_hour (t : datetime) :
  Datetime.valid t = true -> 0 <= hour t <= 23.
Proof.
  unfold Datetime.valid. rewrite !andb_true_iff, !Z.leb_le. lia.
Qed.

Lemma valid_minute (t : datetime) :
  Datetime.valid t = true -> 0 <= minute t <= 59.
Proof.
  unfold Datetime.valid. rewrite !andb_true_iff, !Z.leb_le. lia.
Qed.

Lemma weekday_range (t : datetime) : 0 <= weekday t < 7.
Proof. unfold weekday. apply Z.mod_pos_bound. lia. Qed.

(** ** Temperature *)

Section Temperature.

Variable libm_sin : float -> float.

Local Open Scope float_scope.

(** The final [max(16.0, min(28.0, t))] always lands in the interval. *)
Lemma limit_in_range (t : pyval) :
  let r := as_float (py_max (PyFloat 16.0) (py_min (PyFloat 28.0) t)) in
  (16.0 <=? r) = true /\ (r <=? 28.0) = true.
Proof.
  unfold py_max, py_min, py_gt.
  assert (Hlt : forall c, py_lt t (PyFloat c) = (as_float t <? c)).
  { intro c. destruct t; reflexivity. }
  rewrite Hlt. destruct (as_float t <? 28.0) eqn:E28.
  - assert (Hgt : py_lt (PyFloat 16.0) t = (16.0 <? as_float t)).
    { destruct t; reflexivity. }
    rewrite Hgt. destruct (16.0 <? as_float t) eqn:E16.
    + split; now apply FloatOrder.ltb_leb.
    + split; reflexivity.
  - split; reflexivity.
Qed.

(** On a number, the limiting expression of the code is the clamp. *)
Lemma limit_is_clamp (t : pyval) :
  is_nan (as_float t) = false ->
  as_float (py_max (PyFloat 16.0) (py_min (PyFloat 28.0) t))
  = Spec.clamp (as_float t) 16.0 28.0.
Proof.
  intros Hn. unfold py_max, py_min, py_gt, Spec.clamp.
  assert (Hlt : forall c, py_lt t (PyFloat c) = (as_float t <? c)).
  { intro c. destruct t; reflexivity. }
  assert (Hgt : forall c, py_lt (PyFloat c) t = (c <? as_float t)).
  { intro c. destruct t; reflexivity. }
  rewrite Hlt. set (x := as_float t) in *.
  destruct (x <? 28.0) eqn:E28.
  - rewrite Hgt. fold x. rewrite (FloatOrder.ltb_asym _ _ E28).
    destruct (16.0 <? x) eqn:E16.
    + now rewrite (FloatOrder.ltb_asym _ _ E16).
    + destruct (x <? 16.0) eqn:E16'; [reflexivity|].
      symmetry. simpl.
      eapply FloatOrder.neither_lt_eq; eauto. reflexivity.
  - change (py_lt (PyFloat 16.0) (PyFloat 28.0)) with true. simpl.
    destruct (x <? 16.0) eqn:E16.
    + assert (H : (x <? 28.0) = true)
        by (eapply FloatOrder.ltb_trans; eauto).
      congruence.
    + destruct (28.0 <? x) eqn:E28'; [reflexivity|].
      symmetry. eapply FloatOrder.neither_lt_eq; eauto. reflexivity.
Qed.

(** C3. For every instant and every state of the noise generator, hence
    every noise draw, the temperature signal returns a value of the closed
    interval [[16.0, 28.0]]. *)
Theorem temperatura_in_range (timestamp : datetime) (w : world) :
  let v := as_float (fst (simular_temperatura libm_sin timestamp w)) in
  (16.0 <=? v) = true /\ (v <=? 28.0) = true.
Proof.
  unfold simular_temperatura, bind, ret, np_random_normal. simpl fst.
  apply limit_in_range.
Qed.

Local Close Scope float_scope.

(** The dynamically typed arithmetic of the code computes the base of the
    specification. *)
Lemma temp_base_refines (h wd : Z) (n : float) :
  0 <= h <= 23 -> 0 <= wd < 7 ->
  let hora := PyInt h in
  let temp_base :=
    if (PyInt 9 <=? hora)%py && (hora <=? PyInt 18)%py then
      (PyFloat 21.5
       + PyFloat 3.5
         * np_sin libm_sin ((hora - PyInt 9) * np_pi / PyInt 9))%py
    else if ((PyInt 19 <=? hora)%py && (hora <=? PyInt 23)%py)
            || ((PyInt 0 <=? hora)%py && (hora <=? PyInt 6)%py) then
      (PyFloat 21.5 - PyFloat 2.0)%py
    else (PyFloat 21.5 + PyFloat 1.0)%py in
  let temp_base :=
    if (PyInt wd >=? PyInt 5)%py then (temp_base - PyFloat 0.5)%py
    else temp_base in
  as_float (temp_base + PyFloat n)%py
  = (Spec.temp_base libm_sin h wd + n)%float.
Proof.
  intros Hh Hw. unfold Spec.temp_base. cbv zeta.
  change (PyInt wd >=? PyInt 5)%py with (5 <=? wd).
  change (PyInt 9 <=? PyInt h)%py with (9 <=? h).
  change (PyInt h <=? PyInt 18)%py with (h <=? 18).
  change (PyInt 19 <=? PyInt h)%py with (19 <=? h).
  change (PyInt h <=? PyInt 23)%py with (h <=? 23).
  change (PyInt 0 <=? PyInt h)%py with (0 <=? h).
  change (PyInt h <=? PyInt 6)%py with (h <=? 6).
  replace ((wd =? 5) || (wd =? 6)) with (5 <=? wd)
    by (destruct (Z.leb_spec 5 wd), (Z.eqb_spec wd 5), (Z.eqb_spec wd 6);
        simpl; lia || reflexivity).
  destruct ((9 <=? h) && (h <=? 18)) eqn:E1.
  - destruct (5 <=? wd); reflexivity.
  - destruct (((19 <=? h) && (h <=? 23)) || ((0 <=? h) && (h <=? 6))) eqn:E2.
    + destruct (5 <=? wd); reflexivity.
    + replace ((h =? 7) || (h =? 8)) with true.
      * destruct (5 <=? wd); reflexivity.
      * symmetry. rewrite orb_true_iff, !Z.eqb_eq.
        rewrite andb_false_iff, !Z.leb_gt in E1.
        rewrite orb_false_iff, !andb_false_iff, !Z.leb_gt in E2. lia.
Qed.

(** C4. For a valid instant with hour [h] and weekday [w] and a generator
    state whose next standard deviate is [z], the temperature signal is
    [clamp (base + n) 16.0 28.0], with [base] the case formula of the
    specification (0.5 less on Saturday and Sunday) and [n] the Gaussian
    sample of mean 0 and deviation 0.8 made from [z], whenever [base + n]
    is a number; exactly one sample of the noise generator is consumed and
    nothing else of the state changes. *)
Theorem temperatura_formula (timestamp : datetime) (w : world) :
  Datetime.valid timestamp = true ->
  let h := hour timestamp in
  let wd := weekday timestamp in
  let n := Spec.gaussian 0 0.8 (next_draw (np_random w)) in
  is_nan (Spec.temp_base libm_sin h wd + n)%float = false ->
  as_float (fst (simular_temperatura libm_sin timestamp w))
  = Spec.clamp (Spec.temp_base libm_sin h wd + n)%float 16.0 28.0
  /\ snd (simular_temperatura libm_sin timestamp w)
     = with_np (advance (np_random w)) w.
Proof.
  intros Hv h wd n Hn.
  pose proof (temp_base_refines h wd n (valid_hour _ Hv) (weekday_range _))
    as Hb.
  cbv zeta in Hb.
  unfold simular_temperatura, bind, ret, np_random_normal.
  cbv beta iota zeta delta [fst snd].
  split; [|reflexivity].
  fold h. fold wd.
  change (PyFloat (as_float (PyInt 0) + as_float (PyFloat 0.8)
                   * next_draw (np_random w))%float) with (PyFloat n).
  rewrite <- Hb in Hn |- *. now apply limit_is_clamp.
Qed.

End Temperature.

(** ** Illuminance *)

(** A property checked on every integer below [n] holds below [n]. *)
Lemma forall_below (n : nat) (P : Z -> bool) :
  forallb P (map Z.of_nat (seq 0 n)) = true ->
  forall z, 0 <= z < Z.of_nat n -> P z = true.
Proof.
  intros H z Hz. rewrite forallb_forall in H. apply H.
  rewrite <- (Z2Nat.id z) by lia. apply in_map, in_seq. lia.
Qed.

Lemma lux_static_nonneg_all (h m : Z) :
  0 <= h <= 23 -> 0 <= m <= 59 -> lux_static_nonneg h m = true.
Proof.
  intros Hh Hm.
  assert (H : forallb (fun h => forallb (lux_static_nonneg h)
                                   (map Z.of_nat (seq 0 60)))
                (map Z.of_nat (seq 0 24)) = true) by (vm_compute; reflexivity).
  pose proof (forall_below 24 _ H h) as H1. cbv beta in H1.
  apply (forall_below 60 _ (H1 ltac:(lia))). lia.
Qed.

Section Luminosity.

Variable libm_sin : float -> float.

Lemma hora_decimal_float (t : datetime) :
  hora_decimal t = PyFloat (as_float (hora_decimal t)).
Proof. reflexivity. Qed.

Lemma luminosidade_unfold (t : datetime) (w : world) :
  simular_luminosidade libm_sin t w =
  match lux_static (hora_decimal t) with
  | Some v => (v, w)
  | None =>
      let x := ((hora_decimal t - PyInt 8) * np_pi / PyInt 10)%py in
      let n := Spec.gaussian 0 50 (next_draw (np_random w)) in
      (py_max (PyInt 0) (PyInt 1000 * np_sin libm_sin x + PyFloat n)%py,
       with_np (advance (np_random w)) w)
  end.
Proof.
  unfold simular_luminosidade, lux_static.
  destruct (_ || _); [reflexivity|].
  destruct (_ && _); [reflexivity|].
  destruct (_ && _); reflexivity.
Qed.

Local Open Scope float_scope.

Lemma day_value (d n : float) :
  (PyInt 1000 * np_sin libm_sin ((PyFloat d - PyInt 8) * np_pi / PyInt 10)
   + PyFloat n)%py
  = NpFloat64 (1000 * libm_sin ((d - 8) * 0x1.921fb54442d18p+1 / 10) + n).
Proof. reflexivity. Qed.

Lemma max0_nonneg (f : float) :
  (0 <=? as_float (py_max (PyInt 0) (NpFloat64 f))) = true.
Proof.
  unfold py_max, py_gt.
  change (py_lt (PyInt 0) (NpFloat64 f)) with (0 <? f).
  destruct (0 <? f) eqn:E; [|reflexivity].
  now apply FloatOrder.ltb_leb.
Qed.

Lemma max0_spec (f : float) :
  as_float (py_max (PyInt 0) (NpFloat64 f)) = Spec.max0 f.
Proof.
  unfold py_max, py_gt, Spec.max0.
  change (py_lt (PyInt 0) (NpFloat64 f)) with (0 <? f).
  destruct (0 <? f); reflexivity.
Qed.

(** C5. For every valid instant and every state of the noise generator,
    the illuminance signal returns a value that is at least 0; and when the
    decimal hour is at least 20 or at most 6 it returns exactly [0.0] and
    leaves the whole state, both generators included, untouched. *)
Theorem luminosidade_nonneg_and_night (t : datetime) (w : world) :
  Datetime.valid t = true ->
  (0 <=? as_float (fst (simular_luminosidade libm_sin t w))) = true
  /\ (let d := as_float (hora_decimal t) in
      (20 <=? d) || (d <=? 6) = true ->
      simular_luminosidade libm_sin t w = (PyFloat 0.0, w)).
Proof.
  intros Hv. split.
  - rewrite luminosidade_unfold.
    pose proof (lux_static_nonneg_all _ _ (valid_hour _ Hv)
                  (valid_minute _ Hv)) as Hs.
    unfold lux_static_nonneg in Hs. fold (hora_decimal t) in Hs.
    destruct (lux_static (hora_decimal t)) as [v|]; [exact Hs|].
    cbv zeta. rewrite hora_decimal_float, day_value. apply max0_nonneg.
  - intros d Hd. unfold simular_luminosidade.
    rewrite hora_decimal_float. fold d.
    change (PyFloat d >=? PyInt 20)%py with (20 <=? d).
    change (PyFloat d <=? PyInt 6)%py with (d <=? 6).
    now rewrite Hd.
Qed.

(** Order facts against the four thresholds of the illuminance. *)
Ltac absurd_order :=
  match goal with
  | |- ?c = false =>
      let E := fresh "E" in
      destruct c eqn:E; [exfalso|reflexivity]
  end;
  match goal with
  | H1 : (?a <=? ?x) = true, H2 : (?x <=? ?b) = true |- False =>
      pose proof (FloatOrder.leb_trans _ _ _ H1 H2); discriminate
  | H1 : (?a <? ?x) = true, H2 : (?x <=? ?b) = true |- False =>
      pose proof (FloatOrder.ltb_leb_trans _ _ _ H1 H2); discriminate
  | H1 : (?a <=? ?x) = true, H2 : (?x <? ?b) = true |- False =>
      pose proof (FloatOrder.leb_ltb_trans _ _ _ H1 H2); discriminate
  | H1 : (?a <? ?x) = true, H2 : (?x <? ?b) = true |- False =>
      pose proof (FloatOrder.ltb_trans _ _ _ H1 H2); discriminate
  | H1 : (?a <? ?x) = true, H2 : (?x <=? ?a) = true |- False =>
      pose proof (FloatOrder.ltb_leb_false _ _ H1); congruence
  end.

Lemma lux_conditions (d : float) :
  lux_static (PyFloat d) =
  if (20 <=? d) || (d <=? 6) then Some (PyFloat 0.0)
  else if (6 <? d) && (d <=? 8) then Some (PyFloat ((d - 6) * 250))
  else if (18 <=? d) && (d <? 20) then Some (PyFloat ((20 - d) * 250))
  else None.
Proof. reflexivity. Qed.

(** C6. For every instant with decimal hour [d]: when [6 < d <= 8] the
    illuminance is exactly [(d - 6) * 250] and the state is untouched; when
    [18 <= d < 20] it is exactly [(20 - d) * 250] and the state is
    untouched; when [8 < d < 18] it is [max 0 (1000 * sin ((d - 8) * pi / 10)
    + n)] with [n] the Gaussian sample of mean 0 and deviation 50 made from
    the next standard deviate, and exactly that one sample is consumed. *)
Theorem luminosidade_branches (t : datetime) (w : world) :
  let d := as_float (hora_decimal t) in
  let r := simular_luminosidade libm_sin t w in
  ((6 <? d) && (d <=? 8) = true -> r = (PyFloat ((d - 6) * 250), w))
  /\ ((18 <=? d) && (d <? 20) = true -> r = (PyFloat ((20 - d) * 250), w))
  /\ ((8 <? d) && (d <? 18) = true ->
      let n := Spec.gaussian 0 50 (next_draw (np_random w)) in
      as_float (fst r)
      = Spec.max0 (1000 * libm_sin ((d - 8) * 0x1.921fb54442d18p+1 / 10) + n)
      /\ snd r = with_np (advance (np_random w)) w).
Proof.
  intros d r. unfold r. rewrite luminosidade_unfold, hora_decimal_float.
  fold d. rewrite lux_conditions. repeat split.
  - intros H. apply andb_true_iff in H. destruct H as [H6 H8].
    assert (E20 : (20 <=? d) = false) by absurd_order.
    assert (E6 : (d <=? 6) = false) by absurd_order.
    now rewrite E20, E6, H6, H8.
  - intros H. apply andb_true_iff in H. destruct H as [H18 H20].
    assert (E20 : (20 <=? d) = false) by absurd_order.
    assert (E6 : (d <=? 6) = false) by absurd_order.
    assert (E8 : (d <=? 8) = false) by absurd_order.
    now rewrite E20, E6, E8, H18, H20, andb_false_r.
  - apply andb_true_iff in H. destruct H as [H8 H18].
    assert (E20 : (20 <=? d) = false) by absurd_order.
    assert (E6 : (d <=? 6) = false) by absurd_order.
    assert (E8 : (d <=? 8) = false) by absurd_order.
    assert (E18 : (18 <=? d) = false) by absurd_order.
    rewrite E20, E6, E8, E18, andb_false_r. cbv zeta.
    rewrite day_value. simpl fst. apply max0_spec.
  - apply andb_true_iff in H. destruct H as [H8 H18].
    assert (E20 : (20 <=? d) = false) by absurd_order.
    assert (E6 : (d <=? 6) = false) by absurd_order.
    assert (E8 : (d <=? 8) = false) by absurd_order.
    assert (E18 : (18 <=? d) = false) by absurd_order.
    now rewrite E20, E6, E8, E18, andb_false_r.
Qed.

End Luminosity.

(** ** Occupancy *)

Lemma simular_ocupacao_eq (t : datetime) (w : world) :
  simular_ocupacao t w
  = (PyInt (if (next_draw (py_random w)
                <? Spec.occupancy_threshold (weekday t) (hour t))%float
            then 1 else 0),
     with_py (advance (py_random w)) w).
Proof.
  unfold simular_ocupacao, Spec.occupancy_threshold.
  change (PyInt (weekday t) <? PyInt 5)%py with (weekday t <? 5).
  change (PyInt 9 <=? PyInt (hour t))%py with (9 <=? hour t).
  change (PyInt (hour t) <? PyInt 18)%py with (hour t <? 18).
  unfold bind, ret, random_random.
  destruct (weekday t <? 5); simpl.
  - destruct ((9 <=? hour t) && (hour t <? 18)); simpl;
      destruct (_ <? _)%float; reflexivity.
  - destruct (_ <? _)%float; reflexivity.
Qed.

Lemma ocupacao_binary (t : datetime) (w : world) :
  fst (simular_ocupacao t w) = PyInt 0 \/ fst (simular_ocupacao t w) = PyInt 1.
Proof.
  rewrite simular_ocupacao_eq. simpl. destruct (_ <? _)%float; auto.
Qed.

(** C7. For every instant and every state of the uniform generator, whose
    next draw is [u], the occupancy signal returns the integer 1 when [u] is
    below the threshold and the integer 0 otherwise, the threshold being 0.95
    on weekdays below 5 with the hour in [[9, 18)], 0.05 on weekdays below 5
    at any other hour and 0.02 on weekdays from 5 on, whatever the hour;
    exactly one uniform sample is consumed and nothing else changes. *)
Theorem ocupacao_threshold (t : datetime) (w : world) :
  let u := next_draw (py_random w) in
  let thr := Spec.occupancy_threshold (weekday t) (hour t) in
  simular_ocupacao t w
  = (PyInt (if (u <? thr)%float then 1 else 0),
     with_py (advance (py_random w)) w)
  /\ (fst (simular_ocupacao t w) = PyInt 0
      \/ fst (simular_ocupacao t w) = PyInt 1)
  /\ pos (py_random (snd (simular_ocupacao t w))) = S (pos (py_random w))
  /\ np_random (snd (simular_ocupacao t w)) = np_random w.
Proof.
  intros u thr. split; [apply simular_ocupacao_eq|].
  split; [apply ocupacao_binary|].
  rewrite simular_ocupacao_eq. split; reflexivity.
Qed.

(** The Saturday of the generated week at 10:00: the hour is inside
    [[9, 18)], yet the threshold is the weekend's. *)
Example ocupacao_saturday_morning (w : world) :
  weekday Sample.saturday_morning = 5
  /\ simular_ocupacao Sample.saturday_morning w
     = (PyInt (if (next_draw (py_random w) <? 0.02)%float then 1 else 0),
        with_py (advance (py_random w)) w).
Proof. split; [reflexivity|apply simular_ocupacao_eq]. Qed.

(** ** The generated instants *)

Lemma cmp_fields_eq (a b : list Z) : cmp_fields a b = Eq -> a = b.
Proof.
  revert b. induction a as [|x a IH]; intros [|y b]; simpl;
    try discriminate; [reflexivity|].
  destruct (Z.compare_spec x y); try discriminate.
  intros Hab. subst. f_equal. now apply IH.
Qed.

Lemma datetime_eqb_eq (a b : datetime) : Datetime.eqb a b = true -> a = b.
Proof.
  unfold Datetime.eqb, Datetime.cmp. intros H.
  destruct (cmp_fields (fields a) (fields b)) eqn:E; try discriminate.
  apply cmp_fields_eq in E. destruct a, b. unfold fields in E. simpl in E.
  congruence.
Qed.

Lemma timedelta_eqb_eq (a b : timedelta) : timedelta_eqb a b = true -> a = b.
Proof.
  unfold timedelta_eqb. rewrite !andb_true_iff, !Z.eqb_eq.
  destruct a, b; simpl. intros [[-> ->] ->]. reflexivity.
Qed.

Lemma nodupb_NoDup (l : list datetime) : nodupb l = true -> NoDup l.
Proof.
  induction l as [|a l IH]; simpl; [constructor|].
  rewrite andb_true_iff, negb_true_iff. intros [Ha Hl].
  constructor; [|now apply IH].
  intros Hin. assert (existsb (Datetime.eqb a) l = true); [|congruence].
  apply existsb_exists. exists a. split; [exact Hin|].
  unfold Datetime.eqb, Datetime.cmp.
  assert (R : forall f, cmp_fields f f = Eq).
  { induction f as [|x f IHf]; simpl; [reflexivity|].
    now rewrite Z.compare_refl. }
  now rewrite R.
Qed.

Lemma consecutive_ok_nth (step : timedelta) (l : list datetime)
    (d : datetime) :
  consecutive_ok step l = true ->
  forall i, (S i < List.length l)%nat ->
  Datetime.sub (nth (S i) l d) (nth i l d) = step.
Proof.
  induction l as [|a l IH]; intros H i Hi; [simpl in Hi; lia|].
  destruct l as [|b l]; [simpl in Hi; lia|].
  simpl in H. apply andb_true_iff in H. destruct H as [Hab Hl].
  destruct i as [|i].
  - simpl. now apply timedelta_eqb_eq.
  - change (nth (S (S i)) (a :: b :: l) d) with (nth (S i) (b :: l) d).
    change (nth (S i) (a :: b :: l) d) with (nth i (b :: l) d).
    apply IH; [exact Hl|]. simpl in Hi |- *. lia.
Qed.

Lemma gerar_timestamps_value :
  gerar_timestamps_7_dias = Some timestamps_list.
Proof. vm_compute. reflexivity. Qed.

Lemma timestamps_length : List.length timestamps_list = 672%nat.
Proof. vm_compute. reflexivity. Qed.

(** C1. The generator takes no input and returns a list of exactly 672
    instants: the first is 2024-01-15T00:00:00, each instant minus its
    predecessor is exactly 15 minutes (so the list is ordered), every
    instant is strictly before the start plus 7 days, and none occurs
    twice. *)
Theorem gerar_timestamps_7_dias_spec :
  exists l limit,
    gerar_timestamps_7_dias = Some l
    /\ List.length l = 672%nat
    /\ hd_error l = Some (mkDatetime 2024 1 15 0 0 0 0)
    /\ (forall i, (S i < 672)%nat ->
        Datetime.sub (nth (S i) l data_inicio) (nth i l data_inicio)
        = new_timedelta 0 0 15
        /\ Datetime.ltb (nth i l data_inicio) (nth (S i) l data_inicio)
           = true)
    /\ Datetime.add data_inicio (new_timedelta 7 0 0) = Some limit
    /\ (forall t, In t l -> Datetime.ltb t limit = true)
    /\ NoDup l.
Proof.
  exists timestamps_list, (mkDatetime 2024 1 22 0 0 0 0).
  split; [exact gerar_timestamps_value|].
  split; [exact timestamps_length|].
  split; [vm_compute; reflexivity|].
  split.
  - intros i Hi. rewrite <- timestamps_length in Hi. split.
    + apply consecutive_ok_nth; [vm_compute; reflexivity|exact Hi].
    + assert (H : forallb (fun k =>
                    Datetime.ltb (nth k timestamps_list data_inicio)
                      (nth (S k) timestamps_list data_inicio))
                    (seq 0 671) = true) by (vm_compute; reflexivity).
      rewrite forallb_forall in H. apply H, in_seq.
      rewrite timestamps_length in Hi. lia.
  - split; [vm_compute; reflexivity|]. split.
    + apply forallb_forall. vm_compute. reflexivity.
    + apply nodupb_NoDup. vm_compute. reflexivity.
Qed.

(** ** The accumulated table *)

Section Table.

Variable libm_sin : float -> float.
Variable np_sum : list float -> float.

Lemma processar_leituras (i n : Z) (t : datetime) (dados : list row)
    (w : world) :
  exists w0,
    fst (processar libm_sin i n t dados w) = dados ++ leituras libm_sin t w0.
Proof.
  unfold processar, bind.
  destruct (i mod 100 =? 0).
  - destruct (print _ w) as [u w0] eqn:Ep. exists w0.
    destruct (simular_temperatura libm_sin t w0) as [tv w1] eqn:E1.
    destruct (simular_luminosidade libm_sin t w1) as [lv w2] eqn:E2.
    destruct (simular_ocupacao t w2) as [ov w3] eqn:E3.
    unfold leituras, ret. rewrite E1. simpl. rewrite E2. simpl. rewrite E3.
    simpl. now rewrite <- !app_assoc.
  - exists w. unfold ret at 1.
    destruct (simular_temperatura libm_sin t w) as [tv w1] eqn:E1.
    destruct (simular_luminosidade libm_sin t w1) as [lv w2] eqn:E2.
    destruct (simular_ocupacao t w2) as [ov w3] eqn:E3.
    unfold leituras, ret. rewrite E1. simpl. rewrite E2. simpl. rewrite E3.
    simpl. now rewrite <- !app_assoc.
Qed.

Lemma simular_dados_table (l : list datetime) :
  forall (i n : Z) (dados : list row) (w : world),
  exists rows,
    fst (simular_dados libm_sin i n l dados w) = dados ++ rows
    /\ table_of libm_sin l rows.
Proof.
  induction l as [|t l IH]; intros i n dados w.
  - exists []. split; [simpl; now rewrite app_nil_r|constructor].
  - simpl. unfold bind.
    destruct (processar_leituras i n t dados w) as [w0 H0].
    destruct (processar libm_sin i n t dados w) as [dados' w'].
    simpl in H0. subst dados'.
    destruct (IH (i + 1) n (dados ++ leituras libm_sin t w0) w')
      as [rows [Hr Ht]].
    exists (leituras libm_sin t w0 ++ rows). split.
    + rewrite Hr. now rewrite app_assoc.
    + now constructor.
Qed.

Lemma table_length (l : list datetime) (rows : list row) :
  table_of libm_sin l rows -> List.length rows = (3 * List.length l)%nat.
Proof.
  induction 1 as [|t l w rows _ IH]; [reflexivity|].
  rewrite length_app, IH. simpl. lia.
Qed.



Lemma table_block (l : list datetime) (rows : list row) (d : datetime) :
  table_of libm_sin l rows ->
  forall i, (i < List.length l)%nat ->
  exists w,
    firstn 3 (skipn (3 * i) rows) = leituras libm_sin (nth i l d) w.
Proof.
  induction 1 as [|t l w rows _ IH]; intros i Hi; [simpl in Hi; lia|].
  destruct i as [|i].
  - exists w. reflexivity.
  - destruct (IH i) as [w' Hw']; [simpl in Hi; lia|].
    exists w'. replace (3 * S i)%nat with (3 + 3 * i)%nat by lia.
    simpl nth. rewrite <- Hw'. reflexivity.
Qed.

End Table.

(** ** What a computation leaves alone *)

Lemma frame_refl (w : world) : frame w w.
Proof. repeat split. exists []. now rewrite app_nil_r. Qed.

Lemma frame_trans (a b c : world) : frame a b -> frame b c -> frame a c.
Proof.
  intros (Hf1 & Hs1 & o1 & Ho1) (Hf2 & Hs2 & o2 & Ho2).
  repeat split; try congruence.
  exists (o1 ++ o2). now rewrite Ho2, Ho1, app_assoc.
Qed.

Lemma framed_ret {A : Type} (a : A) : framed (ret a).
Proof. intros w. apply frame_refl. Qed.

Lemma framed_bind {A B : Type} (c : Py A) (k : A -> Py B) :
  framed c -> (forall a, framed (k a)) -> framed (bind c k).
Proof.
  intros Hc Hk w. unfold bind. specialize (Hc w).
  destruct (c w) as [a w1]. simpl in Hc.
  eapply frame_trans; [exact Hc|apply Hk].
Qed.

Lemma framed_print (s : string) : framed (print s).
Proof. intros w. repeat split. now exists [s]. Qed.

Lemma framed_normal (loc scale : pyval) : framed (np_random_normal loc scale).
Proof. intros w. repeat split. exists []. simpl. now rewrite app_nil_r. Qed.

Lemma framed_random : framed random_random.
Proof. intros w. repeat split. exists []. simpl. now rewrite app_nil_r. Qed.

Ltac solve_framed :=
  repeat first
    [ apply framed_ret | apply framed_print | apply framed_normal
    | apply framed_random
    | apply framed_bind; [|intro]
    | match goal with
      | |- framed (if ?c then _ else _) => destruct c
      | |- framed (let _ := _ in _) => cbv zeta
      end ].

Section Frames.

Variable libm_sin : float -> float.
Variable np_sum : list float -> float.

Lemma framed_temperatura (t : datetime) :
  framed (simular_temperatura libm_sin t).
Proof. unfold simular_temperatura. solve_framed. Qed.

Lemma framed_luminosidade (t : datetime) :
  framed (simular_luminosidade libm_sin t).
Proof. unfold simular_luminosidade. solve_framed. Qed.

Lemma framed_ocupacao (t : datetime) : framed (simular_ocupacao t).
Proof. unfold simular_ocupacao. solve_framed. Qed.

Lemma framed_processar (i n : Z) (t : datetime) (dados : list row) :
  framed (processar libm_sin i n t dados).
Proof.
  unfold processar.
  apply framed_bind; [destruct (_ =? _); solve_framed|intro].
  apply framed_bind; [apply framed_temperatura|intro].
  apply framed_bind; [apply framed_luminosidade|intro].
  apply framed_bind; [apply framed_ocupacao|intro].
  apply framed_ret.
Qed.

Lemma framed_simular_dados (l : list datetime) :
  forall (i n : Z) (dados : list row),
  framed (simular_dados libm_sin i n l dados).
Proof.
  induction l as [|t l IH]; intros i n dados; simpl.
  - apply framed_ret.
  - apply framed_bind; [apply framed_processar|intro]. apply IH.
Qed.

Lemma framed_for_each {A : Type} (l : list A) (body : A -> Py unit) :
  (forall a, framed (body a)) -> framed (for_each_py l body).
Proof.
  intros Hb. induction l as [|a l IH]; simpl.
  - apply framed_ret.
  - apply framed_bind; [apply Hb|intro; exact IH].
Qed.

Lemma framed_estatisticas (df : dataframe) (sensor : string) :
  framed (estatisticas np_sum df sensor).
Proof. unfold estatisticas. solve_framed. Qed.

Lemma framed_relatorio (df : dataframe) : framed (relatorio np_sum df).
Proof.
  unfold relatorio.
  repeat (apply framed_bind; [apply framed_print|intro]).
  apply framed_bind;
    [apply framed_for_each; intro; apply framed_estatisticas|intro].
  solve_framed.
Qed.

(** The summary prints the period as its third line. *)
Lemma relatorio_periodo (df : dataframe) (w : world) :
  In ("   Periodo: " ++ str_min (col_timestamp df) ++ " ate "
      ++ str_max (col_timestamp df))%string
     (stdout (snd (relatorio np_sum df w))).
Proof.
  unfold relatorio.
  match goal with
  | |- context [bind (print ?l1) (fun _ => bind (print ?l2) (fun _ =>
         bind (print ?l3) (fun _ => ?rest)))] =>
      assert (Hr : framed rest)
  end.
  { apply framed_bind; [apply framed_print|intro].
    apply framed_bind;
      [apply framed_for_each; intro; apply framed_estatisticas|intro].
    solve_framed. }
  unfold bind at 1 2 3. unfold print at 1 2 3.
  match goal with
  | |- In _ (stdout (snd (_ ?w3))) =>
      destruct (Hr w3) as (_ & _ & out & Hout); rewrite Hout
  end.
  simpl stdout. apply in_or_app. left. apply in_or_app. right. now left.
Qed.

(** [main] never raises: it builds the table of the 672 instants, writes
    it to the file and prints the summary. *)
Lemma main_run (w : world) :
  exists rows w',
    main libm_sin np_sum w = (Done (DataFrame rows), w')
    /\ table_of libm_sin timestamps_list rows
    /\ read_file nome_arquivo w'
       = Some (Csv.content (os_linesep w) (Csv.lines (DataFrame rows)))
    /\ In ("   Periodo: " ++ str_min (col_timestamp (DataFrame rows))
           ++ " ate " ++ str_max (col_timestamp (DataFrame rows)))%string
          (stdout w').
Proof.
  unfold main. rewrite gerar_timestamps_value. cbv zeta.
  unfold bind at 1 2 3 4. unfold print at 1 2 3 4.
  match goal with
  | |- context [bind (simular_dados libm_sin ?i ?n ?l ?d) ?k ?w0] =>
      set (w1 := w0);
      destruct (simular_dados_table libm_sin l i n d w1) as (rows & Hr & Ht);
      pose proof (framed_simular_dados l i n d w1) as Hf;
      unfold bind at 1;
      destruct (simular_dados libm_sin i n l d w1) as [dados w2]
  end.
  simpl in Hr, Hf. subst dados.
  exists rows.
  unfold bind at 1. unfold print at 1.
  unfold bind at 1. unfold to_csv at 1, write_file at 1.
  match goal with
  | |- context [bind (relatorio np_sum ?df) ?k ?w3] =>
      set (w4 := w3);
      pose proof (framed_relatorio df w4) as Hf4;
      pose proof (relatorio_periodo df w4) as Hp;
      unfold bind at 1;
      destruct (relatorio np_sum df w4) as [u w5]
  end.
  exists w5. unfold ret. simpl in Hf4, Hp.
  split; [reflexivity|]. split; [exact Ht|]. split; [|exact Hp].
  destruct Hf4 as (Hfiles & _ & _). destruct Hf as (_ & Hsep & _).
  unfold read_file. rewrite Hfiles. unfold w4.
  cbn [files find fst snd os_linesep]. rewrite String.eqb_refl.
  cbn [snd]. rewrite Hsep. reflexivity.
Qed.

End Frames.

(** ** The time texts of the generated instants *)


(** ** The columns of the table *)

Section Columns.

Variable libm_sin : float -> float.

Lemma table_timestamps (l : list datetime) (rows : list row) :
  table_of libm_sin l rows ->
  map r_timestamp rows
  = flat_map (fun t => [strftime t; strftime t; strftime t]) l.
Proof.
  induction 1 as [|t l w rows _ IH]; [reflexivity|].
  rewrite map_app, IH. reflexivity.
Qed.

Lemma is_int_add_float (a : pyval) (f : float) :
  is_int (py_add a (PyFloat f)) = false.
Proof. destruct a; reflexivity. Qed.

Lemma is_int_min (c : float) (v : pyval) :
  is_int v = false -> is_int (py_min (PyFloat c) v) = false.
Proof. intros H. unfold py_min. destruct (py_lt v (PyFloat c)); auto. Qed.

Lemma is_int_max (c : float) (v : pyval) :
  is_int v = false -> is_int (py_max (PyFloat c) v) = false.
Proof. intros H. unfold py_max. destruct (py_gt v (PyFloat c)); auto. Qed.

Lemma is_int_round (v : pyval) (n : Z) : is_int (py_round v n) = is_int v.
Proof. destruct v; reflexivity. Qed.

(** The temperature reading is never an [int]. *)
Lemma temperatura_is_float (t : datetime) (w : world) :
  is_int (py_round (fst (simular_temperatura libm_sin t w)) 2) = false.
Proof.
  rewrite is_int_round. unfold simular_temperatura, bind, ret.
  unfold np_random_normal. cbv beta iota zeta delta [fst].
  apply is_int_max, is_int_min, is_int_add_float.
Qed.

(** Hence the value column of a non-empty table is [float64]. *)
Lemma table_value_column (l : list datetime) (rows : list row) :
  table_of libm_sin l rows -> l <> [] ->
  infer_column (map r_value rows)
  = Float64Column (map as_float (map r_value rows)).
Proof.
  intros Ht Hl. unfold infer_column.
  destruct Ht as [|t l w rows _]; [congruence|].
  cbn [leituras app map r_value forallb].
  now rewrite temperatura_is_float.
Qed.

End Columns.

Lemma csv_rows_map {A : Type} (f g h : A -> string) (l : list A) :
  Csv.rows (map f l) (map g l) (map h l)
  = map (fun r => Csv.record [f r; g r; h r]) l.
Proof. induction l as [|a l IH]; simpl; [reflexivity|now rewrite IH]. Qed.

Lemma timestamps_unquoted (i : nat) :
  Csv.needs_quote (strftime (nth i timestamps_list data_inicio)) = false.
Proof.
  destruct (Nat.lt_ge_cases i 672) as [Hi|Hi].
  - assert (H : forallb (fun t => negb (Csv.needs_quote (strftime t)))
                  timestamps_list = true) by (vm_compute; reflexivity).
    assert (Hin : In (nth i timestamps_list data_inicio) timestamps_list)
      by (apply nth_In; now rewrite timestamps_length).
    pose proof (proj1 (forallb_forall _ _) H _ Hin) as Hq. cbv beta in Hq.
    destruct (Csv.needs_quote _); [discriminate Hq|reflexivity].
  - rewrite nth_overflow by (now rewrite timestamps_length). reflexivity.
Qed.

(** ** UTF-8 *)

Lemma utf8_char_decode (c : ascii) (b : bytes) :
  Csv.utf8_decode (Csv.utf8_char c ++ b)
  = option_map (String c) (Csv.utf8_decode b).
Proof.
  destruct c as [[] [] [] [] [] [] [] []]; reflexivity.
Qed.

Lemma utf8_round_trip (s : string) : Csv.utf8_decode (Csv.utf8 s) = Some s.
Proof.
  induction s as [|c s IH]; [reflexivity|].
  simpl Csv.utf8. now rewrite utf8_char_decode, IH.
Qed.

(** ** The summary and the file *)

Section FileClaims.

Variable libm_sin : float -> float.
Variable np_sum : list float -> float.

(** C10. The period printed by the summary is the least and the greatest
    of the formatted timestamps in the order of strings; on the generated
    instants that order agrees with the order of time, so the two are the
    texts of the first and of the last generated instant, which no
    generated instant precedes or follows: exactly [2024-01-15 00:00:00]
    and [2024-01-21 23:45:00]. *)
Theorem summary_period (w : world) :
  exists df w',
    main libm_sin np_sum w = (Done df, w')
    /\ In ("   Periodo: " ++ str_min (col_timestamp df) ++ " ate "
           ++ str_max (col_timestamp df))%string (stdout w')
    /\ str_min (col_timestamp df) = "2024-01-15 00:00:00"%string
    /\ str_max (col_timestamp df) = "2024-01-21 23:45:00"%string
    /\ option_map strftime (hd_error timestamps_list)
       = Some (str_min (col_timestamp df))
    /\ strftime (last timestamps_list data_inicio)
       = str_max (col_timestamp df)
    /\ (forall a b, In a timestamps_list -> In b timestamps_list ->
        String.ltb (strftime a) (strftime b) = Datetime.ltb a b)
    /\ (forall t, In t timestamps_list ->
        Datetime.ltb t (hd data_inicio timestamps_list) = false
        /\ Datetime.ltb (last timestamps_list data_inicio) t = false).
Proof.
  destruct (main_run libm_sin np_sum w) as (rows & w' & Hm & Ht & _ & Hp).
  exists (DataFrame rows), w'. split; [exact Hm|].
  split; [exact Hp|].
  unfold DataFrame, col_timestamp. rewrite (table_timestamps _ _ _ Ht).
  split; [vm_compute; reflexivity|].
  split; [vm_compute; reflexivity|].
  split; [vm_compute; reflexivity|].
  split; [vm_compute; reflexivity|].
  split.
  - assert (H : forallb (fun a => forallb (fun b =>
                  Bool.eqb (String.ltb (strftime a) (strftime b))
                           (Datetime.ltb a b)) timestamps_list)
                  timestamps_list = true) by (vm_compute; reflexivity).
    intros a b Ha Hb.
    pose proof (proj1 (forallb_forall _ _) H a Ha) as Hq. cbv beta in Hq.
    pose proof (proj1 (forallb_forall _ _) Hq b Hb) as Hq'. cbv beta in Hq'.
    apply Bool.eqb_prop, Hq'.
  - assert (H : forallb (fun t =>
                  negb (Datetime.ltb t (hd data_inicio timestamps_list))
                  && negb (Datetime.ltb (last timestamps_list data_inicio) t))
                  timestamps_list = true) by (vm_compute; reflexivity).
    intros t Hin.
    pose proof (proj1 (forallb_forall _ _) H t Hin) as Hq. cbv beta in Hq.
    destruct (Datetime.ltb t _); [discriminate Hq|].
    destruct (Datetime.ltb _ t); [discriminate Hq|]. split; reflexivity.
Qed.

Lemma csv_lines_table (rows : list row) :
  table_of libm_sin timestamps_list rows ->
  Csv.lines (DataFrame rows)
  = "timestamp,sensor_id,value"%string :: map csv_line rows.
Proof.
  intros Ht. unfold Csv.lines, DataFrame. cbn [col_timestamp col_sensor_id
    col_value].
  rewrite (table_value_column _ _ _ Ht)
    by (intros E; pose proof timestamps_length as L; rewrite E in L;
        discriminate L).
  cbn [column_text]. rewrite !map_map. f_equal.
  apply (csv_rows_map r_timestamp r_sensor_id
           (fun r => value_text (as_float (r_value r)))).
Qed.

Lemma csv_line_form (time sensor : string) (v : pyval) :
  Csv.needs_quote time = false -> Csv.needs_quote sensor = false ->
  csv_line (mkRow time sensor v)
  = (time ++ "," ++ sensor ++ ","
     ++ Csv.field (value_text (as_float v)))%string.
Proof.
  intros H1 H2. unfold csv_line, Csv.record. cbn [map String.concat].
  cbn [r_timestamp r_sensor_id r_value].
  unfold Csv.field at 1 2. now rewrite H1, H2.
Qed.

(** The three lines of the file for one instant. *)
Lemma csv_block_lines (t : datetime) (w_t : world) :
  Csv.needs_quote (strftime t) = false ->
  exists temp lux occ,
    map csv_line (leituras libm_sin t w_t)
    = [strftime t ++ ",TEMP01," ++ Csv.field temp;
       strftime t ++ ",LUX01," ++ Csv.field lux;
       strftime t ++ ",OCCU01," ++ occ]%string
    /\ (occ = "0.0"%string \/ occ = "1.0"%string).
Proof.
  intros Htime. unfold leituras. cbv zeta. cbn [map].
  set (temp := simular_temperatura libm_sin t w_t).
  set (lux := simular_luminosidade libm_sin t (snd temp)).
  pose proof (ocupacao_binary t (snd lux)) as Hocc.
  set (occ := simular_ocupacao t (snd lux)) in *.
  exists (value_text (as_float (py_round (fst temp) 2))),
         (value_text (as_float (py_round (fst lux) 2))),
         (Csv.field (value_text (as_float (fst occ)))).
  split.
  - clearbody occ lux temp.
    apply f_equal2;
      [exact (csv_line_form _ "TEMP01" (py_round (fst temp) 2) Htime eq_refl)|].
    apply f_equal2;
      [exact (csv_line_form _ "LUX01" (py_round (fst lux) 2) Htime eq_refl)|].
    apply f_equal2; [|reflexivity].
    exact (csv_line_form _ "OCCU01" (fst occ) Htime eq_refl).
  - destruct Hocc as [E|E]; rewrite E; [left|right]; reflexivity.
Qed.

(** C8, as the code has it. The file [smart_office_data.csv] holds the
    UTF-8 bytes of the header line [timestamp,sensor_id,value] followed by
    exactly 2016 data lines, each made of the timestamp, the sensor
    identifier and the value separated by commas, with no index in front;
    the value of every occupancy row is the text [0.0] or [1.0], because
    the value column holds floats. *)
Theorem csv_file_contents (w : world) :
  exists df w' data,
    main libm_sin np_sum w = (Done df, w')
    /\ Csv.lines df = "timestamp,sensor_id,value"%string :: data
    /\ read_file nome_arquivo w'
       = Some (Csv.utf8 (Csv.text (os_linesep w) (Csv.lines df)))
    /\ Csv.utf8_decode (Csv.utf8 (Csv.text (os_linesep w) (Csv.lines df)))
       = Some (Csv.text (os_linesep w) (Csv.lines df))
    /\ List.length data = 2016%nat
    /\ (forall i, (i < 672)%nat ->
        let time := strftime (nth i timestamps_list data_inicio) in
        exists temp lux occ,
          firstn 3 (skipn (3 * i) data)
          = [time ++ ",TEMP01," ++ Csv.field temp;
             time ++ ",LUX01," ++ Csv.field lux;
             time ++ ",OCCU01," ++ occ]%string
          /\ (occ = "0.0"%string \/ occ = "1.0"%string)).
Proof.
  destruct (main_run libm_sin np_sum w) as (rows & w' & Hm & Ht & Hf & _).
  exists (DataFrame rows), w', (map csv_line rows).
  split; [exact Hm|].
  split; [now apply csv_lines_table|].
  split; [exact Hf|].
  split; [apply utf8_round_trip|].
  split.
  { rewrite length_map, (table_length _ _ _ Ht), timestamps_length.
    reflexivity. }
  intros i Hi. cbv zeta.
  destruct (table_block _ _ _ data_inicio Ht i) as [w_t Hb].
  { rewrite timestamps_length. exact Hi. }
  rewrite skipn_map, firstn_map, Hb.
  exact (csv_block_lines _ w_t (timestamps_unquoted i)).
Qed.

(** The generator states a process starts with do not matter once both
    generators are seeded. *)
Variable np_seeded : Z -> nat -> float.
Variable py_seeded : Z -> nat -> float.

Lemma program_seeded (w : world) :
  program libm_sin np_sum np_seeded py_seeded w
  = main libm_sin np_sum
      (mkWorld (mkGenerator (np_seeded 42) 0) (mkGenerator (py_seeded 42) 0)
               (stdout w) (files w) (os_linesep w)).
Proof. reflexivity. Qed.

(** C9. Two runs of the program that differ only in the state of the two
    generators at process start (same platform functions, same terminal,
    same disk) end identically: the same table in memory, the same bytes in
    [smart_office_data.csv], the same lines printed, and indeed the same
    whole final state. *)
Theorem program_deterministic (g1 g2 g1' g2' : generator)
    (out : list string) (fs : list (string * bytes)) (sep : string) :
  let run1 := program libm_sin np_sum np_seeded py_seeded
                (mkWorld g1 g2 out fs sep) in
  let run2 := program libm_sin np_sum np_seeded py_seeded
                (mkWorld g1' g2' out fs sep) in
  fst run1 = fst run2
  /\ read_file nome_arquivo (snd run1) = read_file nome_arquivo (snd run2)
  /\ stdout (snd run1) = stdout (snd run2)
  /\ snd run1 = snd run2
  /\ exists df, fst run1 = Done df.
Proof.
  intros run1 run2.
  assert (E : run1 = run2).
  { unfold run1, run2. now rewrite !program_seeded. }
  rewrite E. repeat split; try reflexivity.
  unfold run2. rewrite program_seeded.
  destruct (main_run libm_sin np_sum
              (mkWorld (mkGenerator (np_seeded 42) 0)
                 (mkGenerator (py_seeded 42) 0)
                 (stdout (mkWorld g1' g2' out fs sep))
                 (files (mkWorld g1' g2' out fs sep))
                 (os_linesep (mkWorld g1' g2' out fs sep))))
    as (rows & w' & Hm & _).
  exists (DataFrame rows). now rewrite Hm.
Qed.

End FileClaims.

(** ** The properties at concrete inputs *)

(** Monday 2024-01-15 at noon on the sample platform: the hypotheses of C4
    hold and its conclusion follows. *)
Lemma temperatura_formula_witness :
  Datetime.valid Sample.monday_noon = true
  /\ is_nan (Spec.temp_base Sample.libm_sin 12 0
             + Spec.gaussian 0 0.8 (Sample.deviate 0 0))%float = false
  /\ as_float (fst (simular_temperatura Sample.libm_sin Sample.monday_noon
                      Sample.world0))
     = Spec.clamp (Spec.temp_base Sample.libm_sin 12 0
                   + Spec.gaussian 0 0.8 (Sample.deviate 0 0))%float
                  16.0 28.0
  /\ snd (simular_temperatura Sample.libm_sin Sample.monday_noon
            Sample.world0)
     = with_np (advance (np_random Sample.world0)) Sample.world0.
Proof.
  split; [reflexivity|]. split; [vm_compute; reflexivity|].
  apply (temperatura_formula Sample.libm_sin Sample.monday_noon
           Sample.world0); vm_compute; reflexivity.
Defined.

(** The same instant for C5: the illuminance is at least 0. *)
Lemma luminosidade_nonneg_witness :
  Datetime.valid Sample.monday_noon = true
  /\ (0 <=? as_float (fst (simular_luminosidade Sample.libm_sin
                             Sample.monday_noon Sample.world0)))%float = true.
Proof.
  split; [reflexivity|].
  apply (luminosidade_nonneg_and_night Sample.libm_sin Sample.monday_noon
           Sample.world0). reflexivity.
Defined.

(** C6 at 07:30 (sunrise), 19:15 (sunset) and 12:00 (day): each range
    condition holds at its instant and gives the stated value. *)
Lemma luminosidade_branches_witness :
  simular_luminosidade Sample.libm_sin Sample.monday_early Sample.world0
  = (PyFloat 375, Sample.world0)
  /\ simular_luminosidade Sample.libm_sin Sample.monday_evening Sample.world0
     = (PyFloat 187.5, Sample.world0)
  /\ snd (simular_luminosidade Sample.libm_sin Sample.monday_noon
            Sample.world0)
     = with_np (advance (np_random Sample.world0)) Sample.world0.
Proof.
  split; [|split].
  - apply (proj1 (luminosidade_branches Sample.libm_sin Sample.monday_early
                    Sample.world0)). reflexivity.
  - apply (proj1 (proj2 (luminosidade_branches Sample.libm_sin
                           Sample.monday_evening Sample.world0))).
    reflexivity.
  - apply (proj2 (proj2 (luminosidade_branches Sample.libm_sin
                           Sample.monday_noon Sample.world0))).
    reflexivity.
Defined.

Lemma bytes_eqb_eq (a b : bytes) : bytes_eqb a b = true -> a = b.
Proof.
  revert b. induction a as [|x a IH]; intros [|y b]; simpl;
    try discriminate; [reflexivity|].
  rewrite andb_true_iff, Ascii.eqb_eq. intros [-> H]. f_equal. now apply IH.
Qed.

Lemma file_is_eq (name : string) (w : world) (data : bytes) :
  file_is name w data = true -> read_file name w = Some data.
Proof.
  unfold file_is. destruct (read_file name w) as [b|]; [|discriminate].
  intros H. f_equal. now apply bytes_eqb_eq.
Qed.

(** C8 fails as worded. On the sample platform the program writes the
    file below, and its first occupancy row ends in [0.0], which is
    neither [0] nor [1]. *)
Lemma csv_occupancy_text_counterexample :
  read_file nome_arquivo (snd Sample.run)
  = Some (Csv.content (os_linesep Sample.world0) (Csv.lines Sample.table))
  /\ nth_error (Csv.lines Sample.table) 3
     = Some "2024-01-15 00:00:00,OCCU01,0.0"%string
  /\ ~ csv_as_claimed (Csv.lines Sample.table).
Proof.
  assert (H3 : nth_error (tl (Csv.lines Sample.table)) 2
               = Some ("2024-01-15 00:00:00" ++ ",OCCU01," ++ "0.0")%string)
    by (vm_compute; reflexivity).
  apply nth_error_In in H3.
  apply conj; [apply file_is_eq; vm_compute; reflexivity|].
  apply conj; [vm_compute; reflexivity|].
  unfold csv_as_claimed. intros Hc. destruct Hc as (_ & _ & Hocc).
  specialize (Hocc "2024-01-15 00:00:00"%string "0.0"%string H3).
  destruct Hocc as [H|H]; discriminate H.
Qed.

(** * Further properties of the program *)

(** ** What each step does to the process state *)

(** A generator after [n] draws. *)
Definition advance_n (n : nat) (g : generator) : generator :=
  Nat.iter n advance g.

(** [effect c n m out]: whatever the state, [c] consumes exactly [n]
    normal deviates and [m] uniform deviates, prints exactly the lines
    [out], and touches neither the disk nor the platform. *)
Definition effect {A : Type} (c : Py A) (n m : nat) (out : list string)
    : Prop :=
  forall w,
    snd (c w)
    = mkWorld (advance_n n (np_random w)) (advance_n m (py_random w))
              (stdout w ++ out) (files w) (os_linesep w).

(** Normal deviates one instant costs the illuminance: one in the day
    branch, none in the others. *)
Definition lux_draws (t : datetime) : nat :=
  match lux_static (hora_decimal t) with Some _ => 0%nat | None => 1%nat end.

(** The line the loop prints before instant number [i], if any. *)
Definition progress_line (i n : Z) : list string :=
  if i mod 100 =? 0 then
    [("   Processando: " ++ str_of_Z i ++ "/" ++ str_of_Z n
      ++ " registros")%string]
  else [].

Fixpoint progress (i n : Z) (l : list datetime) : list string :=
  match l with
  | [] => []
  | _ :: l' => progress_line i n ++ progress (i + 1) n l'
  end.

Fixpoint normal_draws (l : list datetime) : nat :=
  match l with
  | [] => 0%nat
  | t :: l' => (1 + lux_draws t + normal_draws l')%nat
  end.

Lemma advance_n_add (a b : nat) (g : generator) :
  advance_n b (advance_n a g) = advance_n (a + b) g.
Proof.
  unfold advance_n. rewrite Nat.add_comm. symmetry. apply Nat.iter_add.
Qed.

Lemma advance_n_spec (n : nat) (g : generator) :
  draws (advance_n n g) = draws g /\ pos (advance_n n g) = (pos g + n)%nat.
Proof.
  induction n as [|n [IHd IHp]]; simpl.
  - split; [reflexivity|lia].
  - unfold advance_n in *. simpl. rewrite IHd, IHp. split; [reflexivity|lia].
Qed.

Lemma effect_ret {A : Type} (a : A) : effect (ret a) 0 0 [].
Proof. intros [g1 g2 out fs sep]. simpl. now rewrite app_nil_r. Qed.

Lemma effect_print (s : string) : effect (print s) 0 0 [s].
Proof. intros w. reflexivity. Qed.

Lemma effect_normal (loc scale : pyval) :
  effect (np_random_normal loc scale) 1 0 [].
Proof. intros [g1 g2 out fs sep]. simpl. now rewrite app_nil_r. Qed.

Lemma effect_random : effect random_random 0 1 [].
Proof. intros [g1 g2 out fs sep]. simpl. now rewrite app_nil_r. Qed.

Lemma effect_bind {A B : Type} (c : Py A) (k : A -> Py B)
    (n1 m1 n2 m2 : nat) (o1 o2 : list string) :
  effect c n1 m1 o1 -> (forall a, effect (k a) n2 m2 o2) ->
  effect (bind c k) (n1 + n2) (m1 + m2) (o1 ++ o2).
Proof.
  intros Hc Hk w. unfold bind. specialize (Hc w).
  destruct (c w) as [a w1]. simpl in Hc. rewrite (Hk a w1), Hc. simpl.
  now rewrite !advance_n_add, app_assoc.
Qed.

Lemma effect_eq {A : Type} (c : Py A) (n m n' m' : nat)
    (o o' : list string) :
  effect c n m o -> n = n' -> m = m' -> o = o' -> effect c n' m' o'.
Proof. intros H -> -> ->. exact H. Qed.

Section Effects.

Variable libm_sin : float -> float.
Variable np_sum : list float -> float.

Lemma effect_temperatura (t : datetime) :
  effect (simular_temperatura libm_sin t) 1 0 [].
Proof.
  unfold simular_temperatura.
  eapply effect_eq;
    [apply effect_bind; [apply effect_normal|intro; apply effect_ret]|..];
    reflexivity.
Qed.

Lemma effect_luminosidade (t : datetime) :
  effect (simular_luminosidade libm_sin t) (lux_draws t) 0 [].
Proof.
  intros w. rewrite luminosidade_unfold. unfold lux_draws.
  destruct (lux_static (hora_decimal t)); cbv zeta; cbn [snd].
  - destruct w. simpl. now rewrite app_nil_r.
  - destruct w. simpl. now rewrite app_nil_r.
Qed.

Lemma effect_ocupacao (t : datetime) : effect (simular_ocupacao t) 0 1 [].
Proof.
  intros w. rewrite simular_ocupacao_eq. destruct w. simpl.
  now rewrite app_nil_r.
Qed.

Lemma effect_processar (i n : Z) (t : datetime) (dados : list row) :
  effect (processar libm_sin i n t dados) (1 + lux_draws t) 1
         (progress_line i n).
Proof.
  unfold processar.
  eapply effect_eq.
  - apply effect_bind with (n1 := 0%nat) (m1 := 0%nat)
                           (o1 := progress_line i n).
    + unfold progress_line. destruct (i mod 100 =? 0);
        [apply effect_print|apply effect_ret].
    + intro. apply effect_bind; [apply effect_temperatura|intro].
      apply effect_bind; [apply effect_luminosidade|intro].
      apply effect_bind; [apply effect_ocupacao|intro]. apply effect_ret.
  - simpl. lia.
  - reflexivity.
  - simpl. now rewrite app_nil_r.
Qed.

Lemma effect_simular_dados (l : list datetime) :
  forall (i n : Z) (dados : list row),
  effect (simular_dados libm_sin i n l dados) (normal_draws l)
         (List.length l) (progress i n l).
Proof.
  induction l as [|t l IH]; intros i n dados; simpl.
  - apply effect_ret.
  - eapply effect_eq;
      [apply effect_bind; [apply effect_processar|intro; apply IH]|..];
      simpl; try reflexivity; lia.
Qed.

End Effects.

(** ** The summary and the final state of [main] *)

Section Report.

Variable np_sum : list float -> float.

(** The four lines of the summary for one sensor. *)
Definition stats_lines (df : dataframe) (sensor : string) : list string :=
  let dados_sensor :=
    select sensor (col_sensor_id df) (column_floats (col_value df)) in
  [("   " ++ sensor ++ ":")%string;
   ("      Media: " ++ Fmt.format_fixed (mean np_sum dados_sensor) 2)%string;
   ("      Min: " ++ Fmt.format_fixed (nanmin dados_sensor) 2)%string;
   ("      Max: " ++ Fmt.format_fixed (nanmax dados_sensor) 2)%string].

(** Everything the summary prints. *)
Definition report_lines (df : dataframe) : list string :=
  [String Csv.LF "Estatisticas dos Dados Gerados:";
   ("   Total de registros: "
    ++ Fmt.format_thousands (Z.of_nat (List.length (col_timestamp df))))%string;
   ("   Periodo: " ++ str_min (col_timestamp df) ++ " ate "
    ++ str_max (col_timestamp df))%string;
   ("   Sensores: "
    ++ str_of_Z (Z.of_nat (List.length (unique (col_sensor_id df) [])))
    ++ " tipos")%string]
  ++ flat_map (stats_lines df) (unique (col_sensor_id df) [])
  ++ [(String Csv.LF "Simulacao concluida! Arquivo salvo como: "
       ++ nome_arquivo)%string;
      "Dados prontos para analise do projeto Smart Office!"%string].

Lemma effect_for_each {A : Type} (l : list A) (body : A -> Py unit)
    (out : A -> list string) :
  (forall a, effect (body a) 0 0 (out a)) ->
  effect (for_each_py l body) 0 0 (flat_map out l).
Proof.
  intros Hb. induction l as [|a l IH]; simpl.
  - apply effect_ret.
  - apply (effect_bind _ _ 0 0 0 0); [apply Hb|intro; exact IH].
Qed.

Lemma effect_estatisticas (df : dataframe) (sensor : string) :
  effect (estatisticas np_sum df sensor) 0 0 (stats_lines df sensor).
Proof.
  unfold estatisticas, stats_lines. cbv zeta.
  apply (effect_bind _ _ 0 0 0 0 [_] [_; _; _]); [apply effect_print|intro].
  apply (effect_bind _ _ 0 0 0 0 [_] [_; _]); [apply effect_print|intro].
  apply (effect_bind _ _ 0 0 0 0 [_] [_]); [apply effect_print|intro].
  apply effect_print.
Qed.

Lemma effect_relatorio (df : dataframe) :
  effect (relatorio np_sum df) 0 0 (report_lines df).
Proof.
  unfold relatorio, report_lines.
  apply (effect_bind _ _ 0 0 0 0 [_] (_ :: _ :: _ :: _));
    [apply effect_print|intro].
  apply (effect_bind _ _ 0 0 0 0 [_] (_ :: _ :: _));
    [apply effect_print|intro].
  apply (effect_bind _ _ 0 0 0 0 [_] (_ :: _)); [apply effect_print|intro].
  apply (effect_bind _ _ 0 0 0 0 [_] _); [apply effect_print|intro].
  apply (effect_bind _ _ 0 0 0 0);
    [apply effect_for_each; intro; apply effect_estatisticas|intro].
  apply (effect_bind _ _ 0 0 0 0 [_] [_]); [apply effect_print|intro].
  apply effect_print.
Qed.

Variable libm_sin : float -> float.

(** The lines [main] prints before the loop. *)
Definition intro_lines : list string :=
  ["Iniciando simulacao de dados do Smart Office...";
   "Gerando timestamps para 7 dias...";
   "   OK: 672 timestamps gerados";
   "Simulando dados dos sensores..."]%string.

(** The result and the final state of [main], in full. *)
Lemma main_world (w : world) :
  exists rows,
    fst (simular_dados libm_sin 0 672 timestamps_list []
           (mkWorld (np_random w) (py_random w) (stdout w ++ intro_lines)
                    (files w) (os_linesep w))) = rows
    /\ main libm_sin np_sum w
       = (Done (DataFrame rows),
          mkWorld (advance_n (normal_draws timestamps_list) (np_random w))
                  (advance_n 672 (py_random w))
                  (stdout w
                   ++ intro_lines ++ progress 0 672 timestamps_list
                   ++ ["Criando arquivo CSV..."%string]
                   ++ report_lines (DataFrame rows))
                  ((nome_arquivo,
                    Csv.content (os_linesep w) (Csv.lines (DataFrame rows)))
                   :: filter (fun f => negb (String.eqb (fst f) nome_arquivo))
                        (files w))
                  (os_linesep w)).
Proof.
  eexists. split; [reflexivity|].
  unfold main. rewrite gerar_timestamps_value. cbv zeta.
  rewrite timestamps_length. change (Z.of_nat 672) with 672.
  unfold bind at 1 2 3 4. unfold print at 1 2 3 4.
  cbn [np_random py_random stdout files os_linesep].
  change (str_of_Z 672) with "672"%string.
  cbn [append].
  rewrite <- !app_assoc. cbn [app].
  fold intro_lines.
  match goal with
  | |- context [bind (simular_dados libm_sin ?i ?n ?l ?d) ?k ?w0] =>
      pose proof (effect_simular_dados libm_sin l i n d w0) as He;
      unfold bind at 1;
      destruct (simular_dados libm_sin i n l d w0) as [dados w2]
  end.
  cbn [fst snd np_random py_random stdout files os_linesep] in He |- *.
  subst w2.
  unfold bind at 1. unfold print at 1.
  unfold bind at 1. unfold to_csv at 1, write_file at 1.
  cbn [fst snd np_random py_random stdout files os_linesep].
  match goal with
  | |- context [bind (relatorio np_sum ?df) ?k ?w3] =>
      pose proof (effect_relatorio df w3) as Hr;
      unfold bind at 1;
      destruct (relatorio np_sum df w3) as [u w5]
  end.
  cbn [fst snd np_random py_random stdout files os_linesep] in Hr.
  subst w5. unfold ret. f_equal.
  rewrite timestamps_length. cbn [advance_n Nat.iter].
  f_equal. now rewrite <- !app_assoc.
Qed.

End Report.

(** ** The table as a function of the two generators *)

(** A state holding the two generators and nothing else. *)
Definition gen_world (gnp gpy : generator) : world :=
  mkWorld gnp gpy [] [] EmptyString.

(** The readings of the instants of [l], the first drawn from the
    generators [gnp] and [gpy], each later one from where the previous
    instant left them. *)
Fixpoint tabela (libm_sin : float -> float) (l : list datetime)
    (gnp gpy : generator) : list row :=
  match l with
  | [] => []
  | t :: l' =>
      leituras libm_sin t (gen_world gnp gpy)
      ++ tabela libm_sin l' (advance_n (1 + lux_draws t) gnp)
           (advance_n 1 gpy)
  end.

Section Generators.

Variable libm_sin : float -> float.
Variable np_sum : list float -> float.

Lemma temperatura_value_gens (t : datetime) (w w' : world) :
  np_random w = np_random w' ->
  fst (simular_temperatura libm_sin t w)
  = fst (simular_temperatura libm_sin t w').
Proof.
  intros H. unfold simular_temperatura, bind, ret, np_random_normal.
  cbv beta iota zeta delta [fst]. now rewrite H.
Qed.

Lemma luminosidade_value_gens (t : datetime) (w w' : world) :
  np_random w = np_random w' ->
  fst (simular_luminosidade libm_sin t w)
  = fst (simular_luminosidade libm_sin t w').
Proof.
  intros H. rewrite !luminosidade_unfold.
  destruct (lux_static (hora_decimal t)); [reflexivity|].
  cbv zeta. cbn [fst]. now rewrite H.
Qed.

Lemma ocupacao_value_gens (t : datetime) (w w' : world) :
  py_random w = py_random w' ->
  fst (simular_ocupacao t w) = fst (simular_ocupacao t w').
Proof. intros H. rewrite !simular_ocupacao_eq. cbn [fst]. now rewrite H. Qed.

Lemma effect_np {A : Type} (c : Py A) (n m : nat) (o : list string)
    (w : world) :
  effect c n m o -> np_random (snd (c w)) = advance_n n (np_random w).
Proof. intros H. now rewrite (H w). Qed.

Lemma effect_py {A : Type} (c : Py A) (n m : nat) (o : list string)
    (w : world) :
  effect c n m o -> py_random (snd (c w)) = advance_n m (py_random w).
Proof. intros H. now rewrite (H w). Qed.

(** The readings of an instant depend on the state through the two
    generators only. *)
Lemma leituras_gens (t : datetime) (w w' : world) :
  np_random w = np_random w' -> py_random w = py_random w' ->
  leituras libm_sin t w = leituras libm_sin t w'.
Proof.
  intros Hn Hp. unfold leituras. cbv zeta.
  rewrite (temperatura_value_gens t w w' Hn).
  rewrite (luminosidade_value_gens t
             (snd (simular_temperatura libm_sin t w))
             (snd (simular_temperatura libm_sin t w'))).
  2:{ rewrite !(effect_np _ _ _ _ _ (effect_temperatura libm_sin t)).
      now rewrite Hn. }
  rewrite (ocupacao_value_gens t
             (snd (simular_luminosidade libm_sin t
                     (snd (simular_temperatura libm_sin t w))))
             (snd (simular_luminosidade libm_sin t
                     (snd (simular_temperatura libm_sin t w'))))).
  2:{ rewrite !(effect_py _ _ _ _ _ (effect_luminosidade libm_sin t)).
      rewrite !(effect_py _ _ _ _ _ (effect_temperatura libm_sin t)).
      now rewrite Hp. }
  reflexivity.
Qed.

Lemma processar_value (i n : Z) (t : datetime) (dados : list row)
    (w : world) :
  fst (processar libm_sin i n t dados w)
  = dados ++ leituras libm_sin t (gen_world (np_random w) (py_random w)).
Proof.
  unfold processar, bind.
  destruct ((if i mod 100 =? 0 then print _ else ret tt) w) as [u w0] eqn:E0.
  assert (Hg : np_random w0 = np_random w /\ py_random w0 = py_random w).
  { destruct (i mod 100 =? 0); inversion E0; split; reflexivity. }
  destruct Hg as [Hn Hp].
  destruct (simular_temperatura libm_sin t w0) as [tv w1] eqn:E1.
  destruct (simular_luminosidade libm_sin t w1) as [lv w2] eqn:E2.
  destruct (simular_ocupacao t w2) as [ov w3] eqn:E3.
  unfold ret. cbn [fst].
  rewrite (leituras_gens t (gen_world (np_random w) (py_random w)) w0)
    by (symmetry; assumption).
  unfold leituras. rewrite E1. cbn [fst snd]. rewrite E2. cbn [fst snd].
  rewrite E3. cbn [fst]. now rewrite <- !app_assoc.
Qed.

(** The loop builds [tabela]: its result is a function of the generators
    it starts with. *)
Lemma simular_dados_tabela (l : list datetime) :
  forall (i n : Z) (dados : list row) (w : world),
  fst (simular_dados libm_sin i n l dados w)
  = dados ++ tabela libm_sin l (np_random w) (py_random w).
Proof.
  induction l as [|t l IH]; intros i n dados w.
  - simpl. now rewrite app_nil_r.
  - cbn [simular_dados tabela]. unfold bind.
    pose proof (processar_value i n t dados w) as Hv.
    pose proof (effect_processar libm_sin i n t dados w) as He.
    destruct (processar libm_sin i n t dados w) as [dados' w'].
    cbn [fst snd] in Hv, He. subst dados' w'.
    rewrite IH. cbn [np_random py_random]. now rewrite app_assoc.
Qed.

End Generators.

(** ** Facts about the generated week used below *)

Lemma normal_draws_week : normal_draws timestamps_list = 945%nat.
Proof. vm_compute. reflexivity. Qed.

Lemma progress_week :
  progress 0 672 timestamps_list
  = ["   Processando: 0/672 registros";
     "   Processando: 100/672 registros";
     "   Processando: 200/672 registros";
     "   Processando: 300/672 registros";
     "   Processando: 400/672 registros";
     "   Processando: 500/672 registros";
     "   Processando: 600/672 registros"]%string.
Proof. vm_compute. reflexivity. Qed.

Definition week_times : list string :=
  flat_map (fun t => [strftime t; strftime t; strftime t]) timestamps_list.

Definition week_sensors : list string :=
  flat_map (fun _ : datetime => ["TEMP01"; "LUX01"; "OCCU01"]%string)
           timestamps_list.

Lemma week_total :
  Fmt.format_thousands (Z.of_nat (List.length week_times)) = "2,016"%string.
Proof. vm_compute. reflexivity. Qed.

Lemma week_min : str_min week_times = "2024-01-15 00:00:00"%string.
Proof. vm_compute. reflexivity. Qed.

Lemma week_max : str_max week_times = "2024-01-21 23:45:00"%string.
Proof. vm_compute. reflexivity. Qed.

Lemma week_unique :
  unique week_sensors [] = ["TEMP01"; "LUX01"; "OCCU01"]%string.
Proof. vm_compute. reflexivity. Qed.

Section MainState.

Variable libm_sin : float -> float.
Variable np_sum : list float -> float.

Lemma table_of_tabela (l : list datetime) :
  forall gnp gpy, table_of libm_sin l (tabela libm_sin l gnp gpy).
Proof.
  induction l as [|t l IH]; intros gnp gpy; cbn [tabela].
  - apply table_nil.
  - apply table_cons, IH.
Qed.

Lemma table_sensors (l : list datetime) (rows : list row) :
  table_of libm_sin l rows ->
  map r_sensor_id rows
  = flat_map (fun _ => ["TEMP01"; "LUX01"; "OCCU01"]%string) l.
Proof.
  induction 1 as [|t l w rows _ IH]; [reflexivity|].
  rewrite map_app, IH. reflexivity.
Qed.

(** The table [main] builds, as a function of the generators. *)
Lemma main_table_value (w : world) :
  fst (main libm_sin np_sum w)
  = Done (DataFrame (tabela libm_sin timestamps_list (np_random w)
                       (py_random w))).
Proof.
  destruct (main_world np_sum libm_sin w) as (rows & Hr & Hm).
  rewrite Hm. cbn [fst]. rewrite <- Hr, simular_dados_tabela. reflexivity.
Qed.

(** X1. Whatever the state, [main] consumes exactly 945 normal deviates
    (one per instant for the temperature and one more for each of the 273
    daytime instants) and exactly 672 uniform deviates; the streams
    themselves are untouched. *)
Theorem main_draw_counts (w : world) :
  let w' := snd (main libm_sin np_sum w) in
  draws (np_random w') = draws (np_random w)
  /\ pos (np_random w') = (pos (np_random w) + (672 + 273))%nat
  /\ draws (py_random w') = draws (py_random w)
  /\ pos (py_random w') = (pos (py_random w) + 672)%nat.
Proof.
  destruct (main_world np_sum libm_sin w) as (rows & _ & Hm).
  cbv zeta. rewrite Hm. cbn [snd np_random py_random].
  rewrite normal_draws_week.
  destruct (advance_n_spec 945 (np_random w)) as [Hd Hp].
  destruct (advance_n_spec 672 (py_random w)) as [Hd' Hp'].
  repeat split; assumption.
Qed.

Lemma find_filter {A : Type} (p q : A -> bool) (l : list A) :
  (forall x, p x = true -> q x = true) ->
  find p (filter q l) = find p l.
Proof.
  intros H. induction l as [|x l IH]; [reflexivity|]. simpl.
  destruct (q x) eqn:Eq; simpl.
  - destruct (p x); [reflexivity|exact IH].
  - destruct (p x) eqn:Ep; [apply H in Ep; congruence|exact IH].
Qed.

Lemma filter_filter_neg {A : Type} (p : A -> bool) (l : list A) :
  filter p (filter (fun x => negb (p x)) l) = [].
Proof.
  induction l as [|x l IH]; [reflexivity|]. simpl.
  destruct (p x) eqn:Ep; simpl; [exact IH|]. now rewrite Ep.
Qed.

(** X3. On the disk [main] changes the file [smart_office_data.csv] and
    nothing else: every other name reads as before, and afterwards exactly
    one entry carries that name, whatever the disk held under it. *)
Theorem main_writes_one_file (w : world) :
  let w' := snd (main libm_sin np_sum w) in
  (forall name, String.eqb name nome_arquivo = false ->
     read_file name w' = read_file name w)
  /\ List.length (filter (fun f => String.eqb (fst f) nome_arquivo)
                    (files w')) = 1%nat
  /\ os_linesep w' = os_linesep w.
Proof.
  destruct (main_world np_sum libm_sin w) as (rows & _ & Hm).
  cbv zeta. rewrite Hm. cbn [snd files os_linesep].
  split; [|split; [|reflexivity]].
  - intros name Hname. unfold read_file. cbn [files find fst].
    rewrite String.eqb_sym, Hname.
    rewrite find_filter; [reflexivity|].
    intros f Hf. apply String.eqb_eq in Hf. rewrite Hf, Hname. reflexivity.
  - cbn [filter fst]. rewrite String.eqb_refl.
    now rewrite (filter_filter_neg (fun f => String.eqb (fst f) nome_arquivo)).
Qed.

Lemma report_lines_week (rows : list row) :
  table_of libm_sin timestamps_list rows ->
  report_lines np_sum (DataFrame rows)
  = [String Csv.LF "Estatisticas dos Dados Gerados:";
     "   Total de registros: 2,016";
     "   Periodo: 2024-01-15 00:00:00 ate 2024-01-21 23:45:00";
     "   Sensores: 3 tipos"]%string
    ++ stats_lines np_sum (DataFrame rows) "TEMP01"
    ++ stats_lines np_sum (DataFrame rows) "LUX01"
    ++ stats_lines np_sum (DataFrame rows) "OCCU01"
    ++ [String Csv.LF
          "Simulacao concluida! Arquivo salvo como: smart_office_data.csv";
        "Dados prontos para analise do projeto Smart Office!"]%string.
Proof.
  intros Ht. unfold report_lines.
  set (df := DataFrame rows).
  assert (Hts : col_timestamp df = week_times)
    by (apply (table_timestamps libm_sin); exact Ht).
  assert (Hid : col_sensor_id df = week_sensors)
    by (apply table_sensors; exact Ht).
  rewrite Hts, Hid, week_total, week_min, week_max, week_unique.
  cbn [flat_map List.length]. rewrite app_nil_r, <- !app_assoc.
  reflexivity.
Qed.

(** X4. Whatever the state, [main] prints the same 30 lines apart from
    the nine statistics: the four opening lines, a progress line before
    instants 0, 100, ..., 600, the line announcing the file, then the
    summary with 2,016 records, the period, 3 sensor types, and a block of
    four lines for TEMP01, LUX01 and OCCU01 in that order, and the two
    closing lines. *)
Theorem main_prints (w : world) :
  exists df,
    fst (main libm_sin np_sum w) = Done df
    /\ stdout (snd (main libm_sin np_sum w))
       = stdout w
         ++ ["Iniciando simulacao de dados do Smart Office...";
             "Gerando timestamps para 7 dias...";
             "   OK: 672 timestamps gerados";
             "Simulando dados dos sensores...";
             "   Processando: 0/672 registros";
             "   Processando: 100/672 registros";
             "   Processando: 200/672 registros";
             "   Processando: 300/672 registros";
             "   Processando: 400/672 registros";
             "   Processando: 500/672 registros";
             "   Processando: 600/672 registros";
             "Criando arquivo CSV...";
             String Csv.LF "Estatisticas dos Dados Gerados:";
             "   Total de registros: 2,016";
             "   Periodo: 2024-01-15 00:00:00 ate 2024-01-21 23:45:00";
             "   Sensores: 3 tipos"]%string
         ++ stats_lines np_sum df "TEMP01"
         ++ stats_lines np_sum df "LUX01"
         ++ stats_lines np_sum df "OCCU01"
         ++ [String Csv.LF
               "Simulacao concluida! Arquivo salvo como: smart_office_data.csv";
             "Dados prontos para analise do projeto Smart Office!"]%string.
Proof.
  destruct (main_world np_sum libm_sin w) as (rows & Hr & Hm).
  exists (DataFrame rows). rewrite Hm. split; [reflexivity|].
  cbn [snd stdout]. f_equal.
  rewrite progress_week, report_lines_week.
  - reflexivity.
  - rewrite <- Hr, simular_dados_tabela. apply table_of_tabela.
Qed.

(** X5. The table and the file do not depend on what the terminal shows
    or on what the disk holds: two states with the same generators and the
    same line terminator give the same table and the same bytes. *)
Theorem main_ignores_terminal_and_disk (w1 w2 : world) :
  np_random w1 = np_random w2 -> py_random w1 = py_random w2 ->
  os_linesep w1 = os_linesep w2 ->
  fst (main libm_sin np_sum w1) = fst (main libm_sin np_sum w2)
  /\ read_file nome_arquivo (snd (main libm_sin np_sum w1))
     = read_file nome_arquivo (snd (main libm_sin np_sum w2)).
Proof.
  intros Hn Hp Hs.
  destruct (main_world np_sum libm_sin w1) as (rows1 & Hr1 & Hm1).
  destruct (main_world np_sum libm_sin w2) as (rows2 & Hr2 & Hm2).
  assert (E : rows1 = rows2).
  { rewrite <- Hr1, <- Hr2, !simular_dados_tabela.
    cbn [np_random py_random]. now rewrite Hn, Hp. }
  rewrite Hm1, Hm2, E, Hs. split; [reflexivity|].
  unfold read_file. cbn [snd files find fst]. now rewrite String.eqb_refl.
Qed.

(** The file [main] leaves, read back. *)
Lemma main_file_value (w : world) :
  read_file nome_arquivo (snd (main libm_sin np_sum w))
  = Some (Csv.content (os_linesep w)
            (Csv.lines (DataFrame (tabela libm_sin timestamps_list
                                     (np_random w) (py_random w))))).
Proof.
  destruct (main_world np_sum libm_sin w) as (rows & Hr & Hm).
  rewrite Hm. unfold read_file. cbn [snd files find fst].
  rewrite String.eqb_refl. cbn [snd].
  rewrite <- Hr, simular_dados_tabela. reflexivity.
Qed.

End MainState.

(** ** Which draws decide which readings *)

Section Blocks.

Variable libm_sin : float -> float.
Variable np_sum : list float -> float.

Lemma leituras_length (t : datetime) (w : world) :
  List.length (leituras libm_sin t w) = 3%nat.
Proof. reflexivity. Qed.

Lemma skipn3_leituras (t : datetime) (w : world) (r : list row) (k : nat) :
  skipn (3 + k) (leituras libm_sin t w ++ r) = skipn k r.
Proof. reflexivity. Qed.

(** The three readings of instant number [k] are drawn after the instants
    before it have consumed their deviates. *)
Lemma tabela_block (l : list datetime) (d : datetime) :
  forall (gnp gpy : generator) (k : nat),
  (k < List.length l)%nat ->
  firstn 3 (skipn (3 * k) (tabela libm_sin l gnp gpy))
  = leituras libm_sin (nth k l d)
      (gen_world (advance_n (normal_draws (firstn k l)) gnp)
                 (advance_n k gpy)).
Proof.
  induction l as [|t l IH]; intros gnp gpy k Hk; [simpl in Hk; lia|].
  destruct k as [|k].
  - reflexivity.
  - replace (3 * S k)%nat with (3 + 3 * k)%nat by lia.
    cbn [tabela]. rewrite skipn3_leituras.
    rewrite IH by (simpl in Hk; lia).
    cbn [nth firstn normal_draws]. rewrite !advance_n_add.
    reflexivity.
Qed.

Lemma py_after_lux (t : datetime) (w : world) :
  py_random (snd (simular_luminosidade libm_sin t
                    (snd (simular_temperatura libm_sin t w))))
  = py_random w.
Proof.
  rewrite (effect_luminosidade libm_sin t
             (snd (simular_temperatura libm_sin t w))).
  cbn [py_random].
  rewrite (effect_temperatura libm_sin t w). reflexivity.
Qed.

Lemma leituras_occupancy (t : datetime) (w : world) :
  nth_error (leituras libm_sin t w) 2
  = Some (mkRow (strftime t) "OCCU01"
            (PyInt (if (next_draw (py_random w)
                        <? Spec.occupancy_threshold (weekday t) (hour t))%float
                    then 1 else 0))).
Proof.
  unfold leituras. cbv zeta. cbn [nth_error].
  rewrite simular_ocupacao_eq. cbn [fst]. now rewrite py_after_lux.
Qed.

Lemma leituras_night (t : datetime) (w : world) :
  let d := as_float (hora_decimal t) in
  ((20 <=? d) || (d <=? 6))%float = true ->
  nth_error (leituras libm_sin t w) 1
  = Some (mkRow (strftime t) "LUX01" (PyFloat 0)).
Proof.
  intros d Hd. unfold leituras. cbv zeta. cbn [nth_error].
  rewrite luminosidade_unfold, hora_decimal_float. fold d.
  rewrite lux_conditions, Hd. reflexivity.
Qed.

Lemma block_nth (l : list row) (n k : nat) :
  (k < 3)%nat ->
  nth_error l (3 * n + k) = nth_error (firstn 3 (skipn (3 * n) l)) k.
Proof.
  intros Hk. rewrite nth_error_firstn, nth_error_skipn.
  destruct (Nat.ltb_spec k 3); [reflexivity|lia].
Qed.

(** X2. The readings of the i-th generated instant are drawn from the
    generators as the earlier instants left them: after [i] uniform
    deviates and after one normal deviate per earlier instant plus one per
    earlier daytime instant. In particular its occupancy is 1 exactly when
    the uniform deviate number [i] after the starting position is below
    the threshold of its weekday and hour. *)
Theorem main_block_draws (w : world) (i : nat) :
  (i < 672)%nat ->
  let t := nth i timestamps_list data_inicio in
  let u := draws (py_random w) (pos (py_random w) + i) in
  exists dados,
    fst (main libm_sin np_sum w) = Done (DataFrame dados)
    /\ firstn 3 (skipn (3 * i) dados)
       = leituras libm_sin t
           (gen_world
              (advance_n (normal_draws (firstn i timestamps_list))
                         (np_random w))
              (advance_n i (py_random w)))
    /\ nth_error dados (3 * i + 2)
       = Some (mkRow (strftime t) "OCCU01"
                 (PyInt (if (u <? Spec.occupancy_threshold (weekday t)
                                    (hour t))%float
                         then 1 else 0))).
Proof.
  intros Hi. cbv zeta.
  exists (tabela libm_sin timestamps_list (np_random w) (py_random w)).
  split; [apply main_table_value|].
  pose proof (tabela_block timestamps_list data_inicio (np_random w)
                (py_random w) i) as Hb.
  rewrite timestamps_length in Hb. specialize (Hb Hi).
  split; [exact Hb|].
  rewrite block_nth by lia. rewrite Hb, leituras_occupancy.
  cbn [gen_world py_random]. unfold next_draw.
  destruct (advance_n_spec i (py_random w)) as [Hd Hp].
  now rewrite Hd, Hp.
Qed.

(** X6. Whatever the state, the illuminance stored for a generated
    instant whose decimal hour is at least 20 or at most 6 is exactly
    [0.0]: rounding leaves it alone. *)
Theorem main_night_rows (w : world) (i : nat) :
  (i < 672)%nat ->
  let t := nth i timestamps_list data_inicio in
  let d := as_float (hora_decimal t) in
  ((20 <=? d) || (d <=? 6))%float = true ->
  exists dados,
    fst (main libm_sin np_sum w) = Done (DataFrame dados)
    /\ nth_error dados (3 * i + 1)
       = Some (mkRow (strftime t) "LUX01" (PyFloat 0)).
Proof.
  intros Hi t d Hd.
  exists (tabela libm_sin timestamps_list (np_random w) (py_random w)).
  split; [apply main_table_value|].
  pose proof (tabela_block timestamps_list data_inicio (np_random w)
                (py_random w) i) as Hb.
  rewrite timestamps_length in Hb. specialize (Hb Hi).
  rewrite block_nth by lia. rewrite Hb. now apply leituras_night.
Qed.

End Blocks.

(** ** Edges of the three signals *)

Lemma nan_not_below (x c : float) : is_nan x = true -> (x <? c)%float = false.
Proof.
  unfold is_nan. rewrite negb_true_iff, eqb_spec, ltb_spec.
  unfold SFeqb, SFltb.
  destruct (Prim2SF x) as [[]|[]| |[] m e]; simpl;
    change (Pos.compare_cont Eq) with Pos.compare;
    rewrite ?Z.compare_refl, ?Pos.compare_refl; simpl;
    try discriminate; reflexivity.
Qed.

(** The illuminance outside the day branch, with its range check. *)
Definition lux_static_bounded (h m : Z) : bool :=
  let d := (PyInt h + PyInt m / PyFloat 60.0)%py in
  if ((as_float d <=? 8) || (18 <=? as_float d))%float then
    match lux_static d with
    | Some (PyFloat v) => ((0 <=? v) && (v <=? 500))%float
    | _ => false
    end
  else true.

Lemma lux_static_bounded_all (h m : Z) :
  0 <= h <= 23 -> 0 <= m <= 59 -> lux_static_bounded h m = true.
Proof.
  intros Hh Hm.
  assert (H : forallb (fun h => forallb (lux_static_bounded h)
                                   (map Z.of_nat (seq 0 60)))
                (map Z.of_nat (seq 0 24)) = true) by (vm_compute; reflexivity).
  pose proof (forall_below 24 _ H h) as H1. cbv beta in H1.
  apply (forall_below 60 _ (H1 ltac:(lia))). lia.
Qed.

Section Edges.

Variable libm_sin : float -> float.

(** X7. Whatever the instant, a uniform draw below 0.02 gives an occupied
    reading and a draw of 0.95 or more gives a free one: the three
    thresholds all lie between the two. *)
Theorem ocupacao_extreme_draws (t : datetime) (w : world) :
  let u := next_draw (py_random w) in
  ((u <? 0.02)%float = true -> fst (simular_ocupacao t w) = PyInt 1)
  /\ ((0.95 <=? u)%float = true -> fst (simular_ocupacao t w) = PyInt 0).
Proof.
  intros u. rewrite simular_ocupacao_eq. cbn [fst]. fold u.
  unfold Spec.occupancy_threshold.
  split; intros Hu.
  - assert (H : forall c, (0.02 <=? c)%float = true -> (u <? c)%float = true)
      by (intros c Hc; eapply FloatOrder.ltb_leb_trans; eauto).
    destruct (weekday t <? 5); [destruct (_ && _)|];
      rewrite H; reflexivity.
  - assert (H : forall c, (0.95 <? c)%float = false -> (u <? c)%float = false).
    { intros c Hc. destruct (u <? c)%float eqn:E; [|reflexivity].
      rewrite (FloatOrder.leb_ltb_trans _ _ _ Hu E) in Hc. discriminate. }
    destruct (weekday t <? 5); [destruct (_ && _)|];
      rewrite H; reflexivity.
Qed.

(** X8. When the noisy temperature is not a number the signal returns
    the upper limit [28.0]: [min(28.0, nan)] keeps its first argument. *)
Theorem temperatura_nan (t : datetime) (w : world) :
  Datetime.valid t = true ->
  let n := Spec.gaussian 0 0.8 (next_draw (np_random w)) in
  is_nan (Spec.temp_base libm_sin (hour t) (weekday t) + n)%float = true ->
  simular_temperatura libm_sin t w
  = (PyFloat 28.0, with_np (advance (np_random w)) w).
Proof.
  intros Hv n Hn.
  pose proof (temp_base_refines libm_sin (hour t) (weekday t) n
                (valid_hour _ Hv) (weekday_range _)) as Hb.
  cbv zeta in Hb.
  unfold simular_temperatura, bind, ret, np_random_normal.
  cbv beta iota zeta.
  change (PyFloat (as_float (PyInt 0) + as_float (PyFloat 0.8)
                   * next_draw (np_random w))%float) with (PyFloat n).
  f_equal.
  match goal with
  | |- py_max _ (py_min _ ?x) = _ =>
      set (X := x) in *;
      assert (Hlt : py_lt X (PyFloat 28.0) = false)
  end.
  { assert (E : py_lt X (PyFloat 28.0) = (as_float X <? 28.0)%float)
      by (destruct X; reflexivity).
    rewrite E, Hb. now apply nan_not_below. }
  unfold py_min. rewrite Hlt. reflexivity.
Qed.

(** X9. Outside the day branch the illuminance is fixed by the clock: for
    a valid instant whose decimal hour is at most 8 or at least 18 it is a
    float between 0 and 500, and the state is returned untouched. *)
Theorem luminosidade_outside_day (t : datetime) (w : world) :
  Datetime.valid t = true ->
  let d := as_float (hora_decimal t) in
  ((d <=? 8) || (18 <=? d))%float = true ->
  exists v,
    simular_luminosidade libm_sin t w = (PyFloat v, w)
    /\ (0 <=? v)%float = true /\ (v <=? 500)%float = true.
Proof.
  intros Hv d Hd.
  pose proof (lux_static_bounded_all _ _ (valid_hour _ Hv)
                (valid_minute _ Hv)) as Hs.
  unfold lux_static_bounded in Hs. cbv zeta in Hs.
  fold (hora_decimal t) in Hs. fold d in Hs. rewrite Hd in Hs.
  rewrite luminosidade_unfold.
  destruct (lux_static (hora_decimal t)) as [[z|v|v]|]; try discriminate Hs.
  exists v. apply andb_true_iff in Hs. destruct Hs as [H0 H500].
  repeat split; assumption.
Qed.

End Edges.

(** ** Running the script again, and the occupancy statistics *)

Lemma occupancy_min_max (l : list float) (x : float) :
  (x = 0 \/ x = 1)%float ->
  Forall (fun y => y = 0 \/ y = 1)%float l ->
  (nanmin (x :: l) = 0 \/ nanmin (x :: l) = 1)%float
  /\ (nanmax (x :: l) = 0 \/ nanmax (x :: l) = 1)%float.
Proof.
  intros Hx Hl. unfold nanmin, nanmax. cbn [fold_left].
  assert (H0 : forall f : float -> float -> float,
             (forall a y, (a = 0 \/ a = 1)%float -> (y = 0 \/ y = 1)%float ->
                          (f a y = 0 \/ f a y = 1)%float) ->
             forall a, (a = 0 \/ a = 1)%float ->
             (fold_left f l a = 0 \/ fold_left f l a = 1)%float).
  { intros f Hf. induction Hl as [|y l Hy _ IH]; intros a Ha; [exact Ha|].
    cbn [fold_left]. apply IH, Hf; assumption. }
  split; apply H0.
  - intros a y [->| ->] [->| ->]; vm_compute; auto.
  - destruct Hx as [->| ->]; vm_compute; auto.
  - intros a y [->| ->] [->| ->]; vm_compute; auto.
  - destruct Hx as [->| ->]; vm_compute; auto.
Qed.

Section Rerun.

Variable libm_sin : float -> float.
Variable np_sum : list float -> float.
Variable np_seeded : Z -> nat -> float.
Variable py_seeded : Z -> nat -> float.

Lemma main_same_generators (g g' : generator) (out1 out2 : list string)
    (fs1 fs2 : list (string * bytes)) (sep : string) :
  fst (main libm_sin np_sum (mkWorld g g' out1 fs1 sep))
  = fst (main libm_sin np_sum (mkWorld g g' out2 fs2 sep))
  /\ read_file nome_arquivo
       (snd (main libm_sin np_sum (mkWorld g g' out1 fs1 sep)))
     = read_file nome_arquivo
         (snd (main libm_sin np_sum (mkWorld g g' out2 fs2 sep))).
Proof. rewrite !main_table_value, !main_file_value. split; reflexivity. Qed.

(** X10. Running the script a second time, in the state the first run
    left, builds the same table and writes the same bytes: the seeds reset
    both generators, and neither the lines already printed nor the file
    already on the disk matter. *)
Theorem program_rerun (w : world) :
  let run1 := program libm_sin np_sum np_seeded py_seeded w in
  let run2 := program libm_sin np_sum np_seeded py_seeded (snd run1) in
  fst run2 = fst run1
  /\ read_file nome_arquivo (snd run2) = read_file nome_arquivo (snd run1).
Proof.
  intros run1 run2. unfold run2, run1. rewrite !program_seeded.
  set (W := mkWorld (mkGenerator (np_seeded 42) 0)
                    (mkGenerator (py_seeded 42) 0)
                    (stdout w) (files w) (os_linesep w)).
  assert (Hs : os_linesep (snd (main libm_sin np_sum W)) = os_linesep w).
  { destruct (main_world np_sum libm_sin W) as (rows & _ & Hm).
    rewrite Hm. reflexivity. }
  rewrite Hs. unfold W. apply main_same_generators.
Qed.

(** The occupancy values of a table, as the summary selects them. *)
Lemma select_occupancy (l : list datetime) (rows : list row) :
  table_of libm_sin l rows ->
  Forall (fun y => y = 0 \/ y = 1)%float
    (select "OCCU01" (map r_sensor_id rows)
       (map as_float (map r_value rows)))
  /\ (l <> [] ->
      select "OCCU01" (map r_sensor_id rows)
        (map as_float (map r_value rows)) <> []).
Proof.
  induction 1 as [|t l w rows _ [IH _]].
  - split; [constructor|congruence].
  - rewrite !map_app. unfold leituras. cbv zeta.
    cbn [map app r_sensor_id r_value select String.eqb Ascii.eqb Bool.eqb].
    split; [|discriminate].
    constructor; [|exact IH].
    match goal with
    | |- context [fst (simular_ocupacao ?t ?w0)] =>
        destruct (ocupacao_binary t w0) as [E|E]; rewrite E
    end; [left|right]; reflexivity.
Qed.

(** X11. In the summary the minimum and the maximum printed for OCCU01
    are each [0.00] or [1.00], whatever the state. *)
Theorem main_occupancy_statistics (w : world) :
  exists df,
    fst (main libm_sin np_sum w) = Done df
    /\ (let occ := select "OCCU01" (col_sensor_id df)
                     (column_floats (col_value df)) in
        (Fmt.format_fixed (nanmin occ) 2 = "0.00"%string
         \/ Fmt.format_fixed (nanmin occ) 2 = "1.00"%string)
        /\ (Fmt.format_fixed (nanmax occ) 2 = "0.00"%string
            \/ Fmt.format_fixed (nanmax occ) 2 = "1.00"%string))
    /\ In ("      Min: " ++ Fmt.format_fixed
             (nanmin (select "OCCU01" (col_sensor_id df)
                        (column_floats (col_value df)))) 2)%string
          (stdout (snd (main libm_sin np_sum w))).
Proof.
  destruct (main_world np_sum libm_sin w) as (rows & Hr & Hm).
  assert (Ht : table_of libm_sin timestamps_list rows)
    by (rewrite <- Hr, simular_dados_tabela; apply table_of_tabela).
  exists (DataFrame rows). rewrite Hm. split; [reflexivity|].
  assert (Hne : timestamps_list <> [])
    by (intros E; pose proof timestamps_length as L; rewrite E in L;
        discriminate L).
  split.
  - cbv zeta. unfold DataFrame. cbn [col_sensor_id col_value].
    rewrite (table_value_column _ _ _ Ht Hne). cbn [column_floats].
    destruct (select_occupancy _ _ Ht) as [Hall Hnon].
    specialize (Hnon Hne).
    destruct (select _ _ _) as [|x l]; [congruence|].
    inversion Hall as [|? ? Hx Hl]; subst.
    destruct (occupancy_min_max l x Hx Hl) as [[E|E] [E'|E']];
      rewrite E, E'; split; ((left; reflexivity) || (right; reflexivity)).
  - cbn [snd stdout]. rewrite (report_lines_week _ _ _ Ht).
    apply in_or_app. right. apply in_or_app. right. apply in_or_app. right.
    apply in_or_app. right. apply in_or_app. right. apply in_or_app. right.
    apply in_or_app. right. apply in_or_app. left.
    unfold stats_lines. cbv zeta. right. right. now left.
Qed.

End Rerun.

(** ** The further properties at concrete inputs *)

(** X2 at the first generated instant on the sample platform. *)
Lemma main_block_draws_witness :
  (0 < 672)%nat
  /\ (let t := nth 0 timestamps_list data_inicio in
      let u := draws (py_random Sample.world0)
                 (pos (py_random Sample.world0) + 0) in
      exists dados,
        fst (main Sample.libm_sin Sample.np_sum Sample.world0)
        = Done (DataFrame dados)
        /\ firstn 3 (skipn (3 * 0) dados)
           = leituras Sample.libm_sin t
               (gen_world
                  (advance_n (normal_draws (firstn 0 timestamps_list))
                             (np_random Sample.world0))
                  (advance_n 0 (py_random Sample.world0)))
        /\ nth_error dados (3 * 0 + 2)
           = Some (mkRow (strftime t) "OCCU01"
                     (PyInt (if (u <? Spec.occupancy_threshold (weekday t)
                                        (hour t))%float
                             then 1 else 0)))).
Proof.
  split; [lia|].
  exact (main_block_draws Sample.libm_sin Sample.np_sum Sample.world0 0
           ltac:(lia)).
Defined.

(** A state with the generators of the sample one, a terminal that has
    already printed and a disk that already holds an older file. *)
Definition world_used : world :=
  mkWorld (np_random Sample.world0) (py_random Sample.world0)
          ["earlier output"%string]
          [(nome_arquivo, ["x"%char]); ("notes.txt"%string, ["y"%char])]
          (os_linesep Sample.world0).

(** X5 on the sample state against the used one. *)
Lemma main_ignores_terminal_and_disk_witness :
  np_random Sample.world0 = np_random world_used
  /\ py_random Sample.world0 = py_random world_used
  /\ os_linesep Sample.world0 = os_linesep world_used
  /\ fst (main Sample.libm_sin Sample.np_sum Sample.world0)
     = fst (main Sample.libm_sin Sample.np_sum world_used)
  /\ read_file nome_arquivo
       (snd (main Sample.libm_sin Sample.np_sum Sample.world0))
     = read_file nome_arquivo
         (snd (main Sample.libm_sin Sample.np_sum world_used)).
Proof.
  split; [reflexivity|]. split; [reflexivity|]. split; [reflexivity|].
  exact (main_ignores_terminal_and_disk Sample.libm_sin Sample.np_sum
           Sample.world0 world_used eq_refl eq_refl eq_refl).
Defined.

Lemma first_instant_is_night :
  ((20 <=? as_float (hora_decimal (nth 0 timestamps_list data_inicio)))
   || (as_float (hora_decimal (nth 0 timestamps_list data_inicio)) <=? 6))%float
  = true.
Proof. vm_compute. reflexivity. Qed.

(** X6 at the first generated instant, midnight. *)
Lemma main_night_rows_witness :
  (0 < 672)%nat
  /\ exists dados,
       fst (main Sample.libm_sin Sample.np_sum Sample.world0)
       = Done (DataFrame dados)
       /\ nth_error dados (3 * 0 + 1)
          = Some (mkRow (strftime (nth 0 timestamps_list data_inicio))
                    "LUX01" (PyFloat 0)).
Proof.
  split; [lia|].
  exact (main_night_rows Sample.libm_sin Sample.np_sum Sample.world0 0
           ltac:(lia) first_instant_is_night).
Defined.

(** A state whose normal generator yields only [nan]. *)
Definition world_nan : world :=
  mkWorld (mkGenerator (fun _ => nan) 0) (py_random Sample.world0) [] []
          (os_linesep Sample.world0).

(** X8 at Monday noon with a noise that is not a number. *)
Lemma temperatura_nan_witness :
  Datetime.valid Sample.monday_noon = true
  /\ is_nan (Spec.temp_base Sample.libm_sin 12 0
             + Spec.gaussian 0 0.8 nan)%float = true
  /\ simular_temperatura Sample.libm_sin Sample.monday_noon world_nan
     = (PyFloat 28.0, with_np (advance (np_random world_nan)) world_nan).
Proof.
  split; [reflexivity|]. split; [vm_compute; reflexivity|].
  apply (temperatura_nan Sample.libm_sin Sample.monday_noon world_nan);
    vm_compute; reflexivity.
Defined.

(** X9 on Monday at 07:30, in the sunrise ramp. *)
Lemma luminosidade_outside_day_witness :
  Datetime.valid Sample.monday_early = true
  /\ exists v,
       simular_luminosidade Sample.libm_sin Sample.monday_early Sample.world0
       = (PyFloat v, Sample.world0)
       /\ (0 <=? v)%float = true /\ (v <=? 500)%float = true.
Proof.
  split; [reflexivity|].
  apply (luminosidade_outside_day Sample.libm_sin Sample.monday_early
           Sample.world0); vm_compute; reflexivity.
Defined.

(** ** Ranges of the stored readings, and the four boundaries of the day *)

Lemma timestamps_valid (i : nat) :
  (i < 672)%nat ->
  Datetime.valid (nth i timestamps_list data_inicio) = true.
Proof.
  intros Hi.
  assert (H : forallb Datetime.valid timestamps_list = true)
    by (vm_compute; reflexivity).
  assert (Hin : In (nth i timestamps_list data_inicio) timestamps_list)
    by (apply nth_In; now rewrite timestamps_length).
  exact (proj1 (forallb_forall _ _) H _ Hin).
Qed.

Section Ranges.

Variable libm_sin : float -> float.
Variable np_sum : list float -> float.

Lemma temperatura_range (t : datetime) (w : world) :
  (16 <=? as_float (fst (simular_temperatura libm_sin t w)))%float = true
  /\ (as_float (fst (simular_temperatura libm_sin t w)) <=? 28)%float = true.
Proof.
  unfold simular_temperatura, bind, ret, np_random_normal.
  cbv beta iota zeta delta [fst]. apply limit_in_range.
Qed.

Lemma luminosidade_nonneg (t : datetime) (w : world) :
  Datetime.valid t = true ->
  (0 <=? as_float (fst (simular_luminosidade libm_sin t w)))%float = true.
Proof.
  intros Hv. rewrite luminosidade_unfold.
  pose proof (lux_static_nonneg_all _ _ (valid_hour _ Hv)
                (valid_minute _ Hv)) as Hs.
  unfold lux_static_nonneg in Hs. fold (hora_decimal t) in Hs.
  destruct (lux_static (hora_decimal t)) as [v|]; [exact Hs|].
  cbv zeta. rewrite hora_decimal_float, day_value. apply max0_nonneg.
Qed.

Lemma leituras_ranges (t : datetime) (w : world) :
  Datetime.valid t = true ->
  exists temp lux,
    nth_error (leituras libm_sin t w) 0
    = Some (mkRow (strftime t) "TEMP01" (py_round temp 2))
    /\ (16 <=? as_float temp)%float = true
    /\ (as_float temp <=? 28)%float = true
    /\ nth_error (leituras libm_sin t w) 1
       = Some (mkRow (strftime t) "LUX01" (py_round lux 2))
    /\ (0 <=? as_float lux)%float = true.
Proof.
  intros Hv.
  exists (fst (simular_temperatura libm_sin t w)),
         (fst (simular_luminosidade libm_sin t
                 (snd (simular_temperatura libm_sin t w)))).
  destruct (temperatura_range t w) as [H16 H28].
  repeat split; try assumption; try reflexivity.
  now apply luminosidade_nonneg.
Qed.

(** X12. Every temperature stored in the table is the rounding to 2
    decimals of a value between 16 and 28, and every illuminance the
    rounding of a value that is at least 0, whatever the state: the 672
    generated instants are all valid instants. *)
Theorem main_table_ranges (w : world) (i : nat) :
  (i < 672)%nat ->
  let t := nth i timestamps_list data_inicio in
  exists dados temp lux,
    fst (main libm_sin np_sum w) = Done (DataFrame dados)
    /\ nth_error dados (3 * i + 0)
       = Some (mkRow (strftime t) "TEMP01" (py_round temp 2))
    /\ (16 <=? as_float temp)%float = true
    /\ (as_float temp <=? 28)%float = true
    /\ nth_error dados (3 * i + 1)
       = Some (mkRow (strftime t) "LUX01" (py_round lux 2))
    /\ (0 <=? as_float lux)%float = true.
Proof.
  intros Hi. cbv zeta.
  pose proof (tabela_block libm_sin timestamps_list data_inicio (np_random w)
                (py_random w) i) as Hb.
  rewrite timestamps_length in Hb. specialize (Hb Hi).
  destruct (leituras_ranges (nth i timestamps_list data_inicio)
              (gen_world
                 (advance_n (normal_draws (firstn i timestamps_list))
                            (np_random w))
                 (advance_n i (py_random w)))
              (timestamps_valid i Hi))
    as (temp & lux & H0 & H16 & H28 & H1 & Hlux).
  exists (tabela libm_sin timestamps_list (np_random w) (py_random w)),
         temp, lux.
  split; [apply main_table_value|].
  rewrite !block_nth by lia. rewrite Hb.
  repeat split; assumption.
Qed.

(** X13. On the hour, the four boundaries of the illuminance fall as the
    comparisons of the code put them: 06:00 and 20:00 belong to the night
    and give [0.0], 08:00 and 18:00 belong to the ramps and give [500.0];
    none of them draws a sample. *)
Theorem luminosidade_boundaries (t : datetime) (w : world) :
  minute t = 0 ->
  let r := simular_luminosidade libm_sin t w in
  (hour t = 6 -> r = (PyFloat 0, w))
  /\ (hour t = 8 -> r = (PyFloat 500, w))
  /\ (hour t = 18 -> r = (PyFloat 500, w))
  /\ (hour t = 20 -> r = (PyFloat 0, w)).
Proof.
  intros Hm r. unfold r. rewrite luminosidade_unfold.
  unfold hora_decimal. rewrite Hm.
  repeat split; intros Hh; rewrite Hh; reflexivity.
Qed.

End Ranges.

(** X12 at the first generated instant. *)
Lemma main_table_ranges_witness :
  (0 < 672)%nat
  /\ exists dados temp lux,
       fst (main Sample.libm_sin Sample.np_sum Sample.world0)
       = Done (DataFrame dados)
       /\ nth_error dados (3 * 0 + 0)
          = Some (mkRow (strftime (nth 0 timestamps_list data_inicio))
                    "TEMP01" (py_round temp 2))
       /\ (16 <=? as_float temp)%float = true
       /\ (as_float temp <=? 28)%float = true
       /\ nth_error dados (3 * 0 + 1)
          = Some (mkRow (strftime (nth 0 timestamps_list data_inicio))
                    "LUX01" (py_round lux 2))
       /\ (0 <=? as_float lux)%float = true.
Proof.
  split; [lia|].
  exact (main_table_ranges Sample.libm_sin Sample.np_sum Sample.world0 0
           ltac:(lia)).
Defined.

(** X13 on Monday 2024-01-15 at 08:00. *)
Lemma luminosidade_boundaries_witness :
  minute (mkDatetime 2024 1 15 8 0 0 0) = 0
  /\ simular_luminosidade Sample.libm_sin (mkDatetime 2024 1 15 8 0 0 0)
       Sample.world0
     = (PyFloat 500, Sample.world0).
Proof.
  split; [reflexivity|].
  apply (proj1 (proj2 (luminosidade_boundaries Sample.libm_sin
                         (mkDatetime 2024 1 15 8 0 0 0) Sample.world0
                         eq_refl))).
  reflexivity.
Defined.

(** ** The list that the loop of [main] accumulates *)

Section AccumulatedTable.

Variable libm_sin : float -> float.
Variable np_sum : list float -> float.


End AccumulatedTable.
